(** * fast-api-basics: request validation, projection and the path operations

    The repository holds two FastAPI applications, [main.py] and the earlier
    [main_pt_one.py].  Both declare pydantic models by field annotations and
    [Field(...)] constraints and hand them to the framework, which binds,
    validates and serialises.  The development has three layers:

    - the values that cross the boundary (JSON values, Python dicts);
    - the validator and the projector, which interpret the declarations;
    - the declarations and the path operation functions of the two files,
      in the modules [Main] and [MainPtOne].

    Strings are [string]; one [ascii] stands for one character, so that
    [String.length] is Python's [len]. *)

From Stdlib Require Import ZArith List String Ascii Bool Lia.
From Stdlib Require Import DecimalString DecimalPos DecimalZ.
Import ListNotations.

Set Warnings "-register-all".

Local Open Scope string_scope.
Local Open Scope list_scope.
Local Open Scope Z_scope.

(** ** Values and dicts *)

(** What the JSON decoder produces and the encoder consumes.  A Python dict
    keeps its keys in insertion order, so it is an association list. *)
Inductive value : Type :=
| VNone
| VBool (b : bool)
| VInt (z : Z)
| VStr (s : string)
| VDict (d : list (string * value)).

Definition dict : Type := list (string * value).

Definition keys (d : dict) : list string := map fst d.

(** [d.get(k)] *)
Fixpoint dict_get (k : string) (d : dict) : option value :=
  match d with
  | [] => None
  | (k', v) :: d' => if String.eqb k k' then Some v else dict_get k d'
  end.

(** [k in d] *)
Definition dict_mem (k : string) (d : dict) : bool :=
  match dict_get k d with Some _ => true | None => false end.

(** [d[k] = v]: an existing key keeps its position, a new key goes last. *)
Fixpoint dict_set (k : string) (v : value) (d : dict) : dict :=
  match d with
  | [] => [(k, v)]
  | (k', v') :: d' =>
      if String.eqb k k' then (k, v) :: d' else (k', v') :: dict_set k v d'
  end.

(** [d1.update(d2)]: the items of [d2] are assigned into [d1] one by one. *)
Definition dict_update (d1 d2 : dict) : dict :=
  fold_left (fun acc kv => dict_set (fst kv) (snd kv) acc) d2 d1.

(** Decimal rendering and reading of integers, as [str(n)] and [int(s)] do
    on plain decimal numerals. *)
Definition str_of_int (z : Z) : string := NilZero.string_of_int (Z.to_int z).

Definition int_of_str (s : string) : option Z :=
  option_map Z.of_int (NilZero.int_of_string s).

(** ** Field constraints and schemas *)

(** The declared type of a field.  [TEnum] carries the literals of an [Enum]
    class; [TChecked p] is a string type with a validator of its own, such as
    [EmailStr]. *)
Inductive ftype : Type :=
| TStr
| TInt
| TBool
| TEnum (literals : list string)
| TChecked (p : string -> bool).

(** [Field(...)]: the first argument is either [...] (required) or a
    default. *)
Inductive presence : Type :=
| Required
| Default (v : value).

Record FieldInfo : Type := mkField {
  default : presence;
  gt : option Z;
  ge : option Z;
  lt : option Z;
  le : option Z;
  min_length : option nat;
  max_length : option nat
}.

(** [name: ty = Field(...)], with [optional] for [Optional[ty]]. *)
Record field : Type := mkfield {
  name : string;
  ty : ftype;
  optional : bool;
  info : FieldInfo
}.

Definition schema : Type := list field.

Definition field_names (s : schema) : list string := map name s.

(** ** Validation failures *)

Inductive constraint : Type :=
| c_gt (b : Z)
| c_ge (b : Z)
| c_lt (b : Z)
| c_le (b : Z)
| c_min_length (n : nat)
| c_max_length (n : nat).

Inductive failure : Type :=
| MissingField
| TypeMismatch
| OutOfRange (c : constraint)
| LengthViolation (c : constraint)
| InvalidEnumValue.

(** A failure with the path of the field it is about. *)
Definition error : Type := (list string * failure)%type.

(** ** The validator *)

(** The repository declares constraints and leaves their interpretation to
    pydantic and FastAPI, whose code is not among the sources.  The
    validator below follows section 4.3 of the spec: coercion to the
    declared type, required or default, numeric bounds, string length
    bounds, enumerated membership. *)

(** Modelled from the spec: the exclusive lower bound of section 4.3,
    step 3. *)
Definition check_gt (b : option Z) (n : Z) : option failure :=
  match b with
  | Some b => if b <? n then None else Some (OutOfRange (c_gt b))
  | None => None
  end.

(** Modelled from the spec: the inclusive lower bound of section 4.3,
    step 3. *)
Definition check_ge (b : option Z) (n : Z) : option failure :=
  match b with
  | Some b => if b <=? n then None else Some (OutOfRange (c_ge b))
  | None => None
  end.

(** Modelled from the spec: the exclusive upper bound of section 4.3,
    step 3. *)
Definition check_lt (b : option Z) (n : Z) : option failure :=
  match b with
  | Some b => if n <? b then None else Some (OutOfRange (c_lt b))
  | None => None
  end.

(** Modelled from the spec: the inclusive upper bound of section 4.3,
    step 3. *)
Definition check_le (b : option Z) (n : Z) : option failure :=
  match b with
  | Some b => if n <=? b then None else Some (OutOfRange (c_le b))
  | None => None
  end.

(** Modelled from the spec: the length bounds of section 4.3, step 4; the
    length must fall within [min_length, max_length], both inclusive. *)
Definition check_min_length (b : option nat) (s : string) : option failure :=
  match b with
  | Some m =>
      if Nat.leb m (String.length s) then None
      else Some (LengthViolation (c_min_length m))
  | None => None
  end.

(** Modelled from the spec: the upper length bound of section 4.3,
    step 4. *)
Definition check_max_length (b : option nat) (s : string) : option failure :=
  match b with
  | Some m =>
      if Nat.leb (String.length s) m then None
      else Some (LengthViolation (c_max_length m))
  | None => None
  end.

(** The first failing check of a list, in order. *)
Fixpoint first_failure (checks : list (option failure)) : option failure :=
  match checks with
  | [] => None
  | Some f :: _ => Some f
  | None :: rest => first_failure rest
  end.

(** Modelled from the spec: all the numeric bounds of a field, section
    4.3, step 3; the failure names the first bound that is violated. *)
Definition check_bounds (i : FieldInfo) (n : Z) : option failure :=
  first_failure [check_gt (gt i) n; check_ge (ge i) n;
                 check_lt (lt i) n; check_le (le i) n].

(** Modelled from the spec: both length bounds of a field, section 4.3,
    step 4. *)
Definition check_length (i : FieldInfo) (s : string) : option failure :=
  first_failure [check_min_length (min_length i) s;
                 check_max_length (max_length i) s].

Definition str_mem (s : string) (l : list string) : bool :=
  existsb (String.eqb s) l.

(** Modelled from the spec: step 1 of section 4.3, coercion of a raw value
    to the declared type (a numeric string becomes an integer). *)
Definition coerce (t : ftype) (raw : value) : failure + value :=
  match t, raw with
  | TStr, VStr s => inr (VStr s)
  | TInt, VInt n => inr (VInt n)
  | TInt, VStr s =>
      match int_of_str s with
      | Some n => inr (VInt n)
      | None => inl TypeMismatch
      end
  | TBool, VBool b => inr (VBool b)
  | TEnum _, VStr s => inr (VStr s)
  | TChecked p, VStr s => if p s then inr (VStr s) else inl TypeMismatch
  | _, _ => inl TypeMismatch
  end.

(** Modelled from the spec: steps 3 to 5 of section 4.3 on a coerced
    value. *)
Definition check_constraints (f : field) (v : value) : failure + value :=
  match v with
  | VInt n =>
      match check_bounds (info f) n with
      | Some e => inl e
      | None => inr v
      end
  | VStr s =>
      match ty f with
      | TEnum literals =>
          if str_mem s literals then inr v else inl InvalidEnumValue
      | _ =>
          match check_length (info f) s with
          | Some e => inl e
          | None => inr v
          end
      end
  | _ => inr v
  end.

(** Modelled from the spec: the Validator of section 4.3 on one field;
    [raw] is [None] when the source does not supply the field. *)
Definition validate_field (f : field) (raw : option value)
  : failure + value :=
  match raw with
  | None =>
      match default (info f) with
      | Required => inl MissingField
      | Default v => inr v
      end
  | Some VNone => if optional f then inr VNone else inl TypeMismatch
  | Some r =>
      match coerce (ty f) r with
      | inl e => inl e
      | inr v => check_constraints f v
      end
  end.

(** Modelled from the spec: the aggregation of section 4.3.  Every field of
    the schema is validated against the raw mapping; the failures of all
    fields are collected, and the typed values are kept in the order of the
    schema.  Keys of the raw mapping that the schema does not declare are
    not looked at. *)
Fixpoint validate_fields (s : schema) (raw : dict) : list error * dict :=
  match s with
  | [] => ([], [])
  | f :: s' =>
      let (errs, vals) := validate_fields s' raw in
      match validate_field f (dict_get (name f) raw) with
      | inl e => (([name f], e) :: errs, vals)
      | inr v => (errs, (name f, v) :: vals)
      end
  end.

(** Modelled from the spec: a Validated Entity is produced only when no
    failure was collected. *)
Definition validate_model (s : schema) (raw : dict) : list error + dict :=
  match validate_fields s raw with
  | ([], vals) => inr vals
  | (errs, _) => inl errs
  end.

(** Modelled from the spec: the Projector of section 4.4.  FastAPI passes
    what the path operation function returns through the [response_model]:
    the result holds the fields of the output schema, in its order, and
    nothing else. *)
Definition serialize_response (response_model : schema) (content : dict)
  : list error + dict :=
  validate_model response_model content.

(** ** Declaring fields *)

(** [Field(d)] with no constraint, and one setter per keyword argument. *)
Definition Field (d : presence) : FieldInfo :=
  mkField d None None None None None None.

Definition with_gt (b : Z) (i : FieldInfo) : FieldInfo :=
  mkField (default i) (Some b) (ge i) (lt i) (le i)
          (min_length i) (max_length i).

Definition with_lt (b : Z) (i : FieldInfo) : FieldInfo :=
  mkField (default i) (gt i) (ge i) (Some b) (le i)
          (min_length i) (max_length i).

Definition with_le (b : Z) (i : FieldInfo) : FieldInfo :=
  mkField (default i) (gt i) (ge i) (lt i) (Some b)
          (min_length i) (max_length i).

Definition with_min_length (n : nat) (i : FieldInfo) : FieldInfo :=
  mkField (default i) (gt i) (ge i) (lt i) (le i)
          (Some n) (max_length i).

Definition with_max_length (n : nat) (i : FieldInfo) : FieldInfo :=
  mkField (default i) (gt i) (ge i) (lt i) (le i)
          (min_length i) (Some n).

(** ** Requests and responses *)

(** What a path operation function raises. *)
Inductive exception : Type :=
| HTTPException (status_code : Z) (detail : string)
| ValidationError (errors : list error).

(** What the client receives: a JSON body with a status, the rejection of a
    request that failed validation, the rendering of an [HTTPException], or
    the answer to an exception nobody handles. *)
Inductive response : Type :=
| JSONResponse (status_code : Z) (content : value)
| RequestValidationError (errors : list error)
| HTTPError (status_code : Z) (detail : string)
| InternalServerError.

Definition HTTP_200_OK : Z := 200.
Definition HTTP_201_CREATED : Z := 201.
Definition HTTP_404_NOT_FOUND : Z := 404.
Definition HTTP_422_UNPROCESSABLE_ENTITY : Z := 422.
Definition HTTP_500_INTERNAL_SERVER_ERROR : Z := 500.

Definition status_of (r : response) : Z :=
  match r with
  | JSONResponse st _ => st
  | RequestValidationError _ => HTTP_422_UNPROCESSABLE_ENTITY
  | HTTPError st _ => st
  | InternalServerError => HTTP_500_INTERNAL_SERVER_ERROR
  end.

Definition respond_exception (e : exception) : response :=
  match e with
  | HTTPException st detail => HTTPError st detail
  | ValidationError _ => InternalServerError
  end.

(** The place of a failure: the source, then the path inside it. *)
Definition at_loc (place : list string) (e : error) : error :=
  ((place ++ fst e), snd e).

Definition errors_of {A : Type} (r : list error + A) : list error :=
  match r with
  | inl errs => errs
  | inr _ => []
  end.

(** Modelled from the spec: the Binder of section 4.2 for parameters of one
    source ([path], [query], [body] form fields, [header], [cookie]). *)
Definition bind_params (source : string) (s : schema) (raw : dict)
  : list error + dict :=
  match validate_model s raw with
  | inl errs => inl (map (at_loc [source]) errs)
  | inr args => inr args
  end.

(** Modelled from the spec: the Binder of section 4.2 for a model that is
    one key of a JSON body shared by several body parameters. *)
Definition bind_embedded (key : string) (s : schema) (body : dict)
  : list error + dict :=
  match dict_get key body with
  | None => inl [(["body"; key], MissingField)]
  | Some (VDict raw) =>
      match validate_model s raw with
      | inl errs => inl (map (at_loc ["body"; key]) errs)
      | inr m => inr m
      end
  | Some _ => inl [(["body"; key], TypeMismatch)]
  end.

(** Modelled from the spec: the Binder of section 4.2 for a model that is
    the whole JSON body. *)
Definition bind_body (s : schema) (body : value) : list error + dict :=
  match body with
  | VDict raw =>
      match validate_model s raw with
      | inl errs => inl (map (at_loc ["body"]) errs)
      | inr m => inr m
      end
  | _ => inl [(["body"], TypeMismatch)]
  end.

(** A dict whose keys need not be strings, such as [{name: age}] where
    [name] may be [None]. *)
Definition anydict : Type := list (value * value).

(** ** main.py *)

Module Main.

(** [class HairColor(Enum)] *)
Definition HairColor : list string :=
  ["white"; "brown"; "black"; "blonde"; "red"].

(** [class Location(BaseModel)] *)
Definition city : field := mkfield "city" TStr false (Field Required).
Definition state : field := mkfield "state" TStr false (Field Required).
Definition country : field := mkfield "country" TStr false (Field Required).

Definition Location : schema := [city; state; country].

(** [class PersonBase(BaseModel)] *)
Definition first_name : field :=
  mkfield "first_name" TStr false
          (with_max_length 50 (with_min_length 1 (Field Required))).

Definition last_name : field :=
  mkfield "last_name" TStr false
          (with_max_length 50 (with_min_length 1 (Field Required))).

Definition age : field :=
  mkfield "age" TInt false (with_le 115 (with_gt 0 (Field Required))).

Definition hair_color : field :=
  mkfield "hair_color" (TEnum HairColor) true (Field (Default VNone)).

Definition is_married : field :=
  mkfield "is_married" TBool true (Field (Default VNone)).

Definition PersonBase : schema :=
  [first_name; last_name; age; hair_color; is_married].

(** [class Person(PersonBase)]: the fields of the base, then [password]. *)
Definition password : field :=
  mkfield "password" TStr false (with_min_length 8 (Field Required)).

Definition Person : schema := (PersonBase ++ [password]).

(** [class PersonOut(PersonBase): pass] *)
Definition PersonOut : schema := PersonBase.

(** [class LoginOut(BaseModel)] *)
Definition username : field :=
  mkfield "username" TStr false (with_max_length 20 (Field Required)).

Definition message : field :=
  mkfield "message" TStr false (Field (Default (VStr "Login Succesfully!"))).

Definition LoginOut : schema := [username; message].

(** [POST /person/new], [response_model=PersonOut], status 201. *)
Definition create_person (person : dict) : dict := person.

Definition create_person_operation (body : value) : response :=
  match bind_body Person body with
  | inl errs => RequestValidationError errs
  | inr person =>
      match serialize_response PersonOut (create_person person) with
      | inl _ => InternalServerError
      | inr content => JSONResponse HTTP_201_CREATED (VDict content)
      end
  end.

(** [persons = [1, 2, 3, 4, 5]] *)
Definition persons : list Z := [1; 2; 3; 4; 5].

(** [person_id: int = Path(..., gt=0)] *)
Definition person_id_param : field :=
  mkfield "person_id" TInt false (with_gt 0 (Field Required)).

(** [GET /person/detail/{person_id}].  The key of the returned dict is the
    identifier; a JSON object has string keys, so it is written in
    decimal. *)
Definition show_person_by_id (person_id : Z) : exception + dict :=
  if negb (existsb (Z.eqb person_id) persons) then
    inl (HTTPException HTTP_404_NOT_FOUND "¡This person doesn't exist!")
  else
    inr [(str_of_int person_id, VStr "It exists!")].

Definition show_person_by_id_operation (segment : string) : response :=
  match bind_params "path" [person_id_param]
                    [("person_id", VStr segment)] with
  | inl errs => RequestValidationError errs
  | inr args =>
      match dict_get "person_id" args with
      | Some (VInt person_id) =>
          match show_person_by_id person_id with
          | inl e => respond_exception e
          | inr content => JSONResponse HTTP_200_OK (VDict content)
          end
      | _ => InternalServerError
      end
  end.

(** [PUT /person/{person_id}]: two body parameters, no [response_model].
    [print(person_id)] writes to the log of the server and is left out. *)
Definition update_person (person_id : Z) (person location : dict) : dict :=
  let results := person in
  let results := dict_update results location in
  results.

Definition update_person_operation (segment : string) (body : value)
  : response :=
  let path := bind_params "path" [person_id_param]
                          [("person_id", VStr segment)] in
  match body with
  | VDict b =>
      let person := bind_embedded "person" Person b in
      let location := bind_embedded "location" Location b in
      match path, person, location with
      | inr args, inr person, inr location =>
          match dict_get "person_id" args with
          | Some (VInt person_id) =>
              JSONResponse HTTP_200_OK
                           (VDict (update_person person_id person location))
          | _ => InternalServerError
          end
      | _, _, _ =>
          RequestValidationError
            (errors_of path ++ errors_of person ++ errors_of location)
      end
  | _ =>
      RequestValidationError
        (errors_of path ++ [(["body"], TypeMismatch)])
  end.

(** [POST /login], [response_model=LoginOut], status 200.  The function
    builds [LoginOut(username=username)], which validates its argument. *)
Definition login_form : schema :=
  [mkfield "username" TStr false (Field Required);
   mkfield "password" TStr false (Field Required)].

Definition login (username password : string) : exception + dict :=
  match validate_model LoginOut [("username", VStr username)] with
  | inl errs => inl (ValidationError errs)
  | inr out => inr out
  end.

Definition login_operation (form : dict) : response :=
  match bind_params "body" login_form form with
  | inl errs => RequestValidationError errs
  | inr args =>
      match dict_get "username" args, dict_get "password" args with
      | Some (VStr username), Some (VStr password) =>
          match login username password with
          | inl e => respond_exception e
          | inr out =>
              match serialize_response LoginOut out with
              | inl _ => InternalServerError
              | inr content => JSONResponse HTTP_200_OK (VDict content)
              end
          end
      | _, _ => InternalServerError
      end
  end.

(** The form a client submits to [/login]. *)
Definition credentials (username password : string) : dict :=
  [("username", VStr username); ("password", VStr password)].

(** [POST /contact], status 200.  [EmailStr] is validated by a library of
    its own; its test is a parameter. *)
Section Contact.

Variable EmailStr : string -> bool.

Definition contact_first_name : field :=
  mkfield "first_name" TStr false
          (with_min_length 1 (with_max_length 20 (Field Required))).

Definition contact_last_name : field :=
  mkfield "last_name" TStr false
          (with_min_length 1 (with_max_length 20 (Field Required))).

Definition contact_email : field :=
  mkfield "email" (TChecked EmailStr) false (Field Required).

Definition contact_message : field :=
  mkfield "message" TStr false (with_min_length 20 (Field Required)).

Definition contact_form : schema :=
  [contact_first_name; contact_last_name; contact_email; contact_message].

(** [user_agent: Optional[str] = Header(default=None)]; the header is
    looked up under its name with hyphens. *)
Definition contact_headers : schema :=
  [mkfield "user-agent" TStr true (Field (Default VNone))].

(** [ads: Optional[str] = Cookie(default=None)] *)
Definition contact_cookies : schema :=
  [mkfield "ads" TStr true (Field (Default VNone))].

(** [print(ads)] writes to the log of the server and is left out. *)
Definition contact (first_name last_name email message : value)
           (user_agent ads : value) : value :=
  user_agent.

Definition arg (k : string) (args : dict) : value :=
  match dict_get k args with
  | Some v => v
  | None => VNone
  end.

Definition contact_operation (form headers cookies : dict) : response :=
  let f := bind_params "body" contact_form form in
  let h := bind_params "header" contact_headers headers in
  let c := bind_params "cookie" contact_cookies cookies in
  match f, h, c with
  | inr f, inr h, inr c =>
      JSONResponse HTTP_200_OK
        (contact (arg "first_name" f) (arg "last_name" f)
                 (arg "email" f) (arg "message" f)
                 (arg "user-agent" h) (arg "ads" c))
  | _, _, _ =>
      RequestValidationError
        (errors_of f ++ errors_of h ++ errors_of c)
  end.

End Contact.

(** [GET /], status 200. *)
Definition home : dict := [("Hello", VStr "World")].

(** [GET /person/detail], status 200, deprecated.  [name] is an optional
    query parameter of 1 to 50 characters, [age] a required one, declared
    [str].  The function returns the dict [{name: age}], whose one key is
    the name, or [None] when no name was given. *)
Definition show_person_query : schema :=
  [mkfield "name" TStr true
           (with_max_length 50 (with_min_length 1 (Field (Default VNone))));
   mkfield "age" TStr false (Field Required)].

Definition show_person (name age : value) : anydict := [(name, age)].

Definition show_person_operation (query : dict) : list error + anydict :=
  match bind_params "query" show_person_query query with
  | inl errs => inl errs
  | inr args => inr (show_person (arg "name" args) (arg "age" args))
  end.

End Main.

(** ** main_pt_one.py *)

Module MainPtOne.

Definition HairColor : list string :=
  ["white"; "brown"; "black"; "blonde"; "red"].

Definition city : field := mkfield "city" TStr false (Field Required).
Definition state : field := mkfield "state" TStr false (Field Required).
Definition country : field := mkfield "country" TStr false (Field Required).

Definition Location : schema := [city; state; country].

(** [class Person(BaseModel)]: no [password], and [age] below 115. *)
Definition first_name : field :=
  mkfield "first_name" TStr false
          (with_max_length 50 (with_min_length 1 (Field Required))).

Definition last_name : field :=
  mkfield "last_name" TStr false
          (with_max_length 50 (with_min_length 1 (Field Required))).

Definition age : field :=
  mkfield "age" TInt false (with_lt 115 (with_gt 0 (Field Required))).

Definition hair_color : field :=
  mkfield "hair_color" (TEnum HairColor) true (Field (Default VNone)).

Definition is_married : field :=
  mkfield "is_married" TBool true (Field (Default VNone)).

Definition Person : schema :=
  [first_name; last_name; age; hair_color; is_married].

Definition person_id_param : field :=
  mkfield "person_id" TInt false (with_gt 0 (Field Required)).

(** [GET /] *)
Definition home : dict := [("Hello", VStr "World")].

(** [GET /twitter/{id}/details]: [id] has no annotation, so it is the path
    segment as a string. *)
Definition twitter (id : string) : dict :=
  let text := String.append "twitter id " (String.append id " text") in
  [("twitter", VStr text)].

Definition twitter_operation (segment : string) : response :=
  JSONResponse HTTP_200_OK (VDict (twitter segment)).

(** [POST /person/new]: no [response_model], default status 200; the
    person is returned with all its fields. *)
Definition create_person (person : dict) : dict := person.

Definition create_person_operation (body : value) : response :=
  match bind_body Person body with
  | inl errs => RequestValidationError errs
  | inr person => JSONResponse HTTP_200_OK (VDict (create_person person))
  end.

(** [GET /person/detail] *)
Definition show_person_query : schema :=
  [mkfield "name" TStr true
           (with_max_length 50 (with_min_length 1 (Field (Default VNone))));
   mkfield "age" TStr false (Field Required)].

Definition show_person (name age : value) : anydict := [(name, age)].

Definition show_person_operation (query : dict) : list error + anydict :=
  match bind_params "query" show_person_query query with
  | inl errs => inl errs
  | inr args => inr (show_person (Main.arg "name" args)
                                 (Main.arg "age" args))
  end.

(** [GET /person/detail/{person_id}]: no lookup, every identifier that
    passes validation exists. *)
Definition show_person_by_id (person_id : Z) : dict :=
  [(str_of_int person_id, VStr "It exists!")].

Definition show_person_by_id_operation (segment : string) : response :=
  match bind_params "path" [person_id_param]
                    [("person_id", VStr segment)] with
  | inl errs => RequestValidationError errs
  | inr args =>
      match dict_get "person_id" args with
      | Some (VInt person_id) =>
          JSONResponse HTTP_200_OK (VDict (show_person_by_id person_id))
      | _ => InternalServerError
      end
  end.

(** [PUT /person/{person_id}]; [print(person_id)] is left out. *)
Definition update_person (person_id : Z) (person location : dict) : dict :=
  let result := person in
  let result := dict_update result location in
  result.

Definition update_person_operation (segment : string) (body : value)
  : response :=
  let path := bind_params "path" [person_id_param]
                          [("person_id", VStr segment)] in
  match body with
  | VDict b =>
      let person := bind_embedded "person" Person b in
      let location := bind_embedded "location" Location b in
      match path, person, location with
      | inr args, inr person, inr location =>
          match dict_get "person_id" args with
          | Some (VInt person_id) =>
              JSONResponse HTTP_200_OK
                           (VDict (update_person person_id person location))
          | _ => InternalServerError
          end
      | _, _, _ =>
          RequestValidationError
            (errors_of path ++ errors_of person ++ errors_of location)
      end
  | _ =>
      RequestValidationError
        (errors_of path ++ [(["body"], TypeMismatch)])
  end.

End MainPtOne.

(** ** Well-formed declarations and sample requests *)

(** A default that passes the checks of its own field.  The declarations
    of the repository all have it. *)
Definition default_ok (f : field) : Prop :=
  match default (info f) with
  | Required => True
  | Default v => validate_field f (Some v) = inr v
  end.

(** No string of the list occurs twice. *)
Fixpoint distinct (l : list string) : bool :=
  match l with
  | [] => true
  | x :: r => negb (str_mem x r) && distinct r
  end.

(** The examples of the [Field] declarations of main.py. *)
Definition miguel : dict :=
  [("first_name", VStr "Miguel"); ("last_name", VStr "Torres");
   ("age", VInt 25); ("password", VStr "12345678")].

Definition miguel_out : dict :=
  [("first_name", VStr "Miguel"); ("last_name", VStr "Torres");
   ("age", VInt 25); ("hair_color", VNone); ("is_married", VNone)].

Definition puerto_montt : dict :=
  [("city", VStr "Puerto Montt"); ("state", VStr "Décima");
   ("country", VStr "Chile")].

(** A username of 21 characters, and a message of 20. *)
Definition long_username : string := "miguel2021miguel2021x".

Definition twenty : string := "12345678901234567890".

(** A contact form with a given message, and the body of an update. *)
Definition contact_request (message : string) : dict :=
  [("first_name", VStr "Miguel"); ("last_name", VStr "Torres");
   ("email", VStr "miguel@example.com"); ("message", VStr message)].

Definition update_body (person location : dict) : value :=
  VDict [("person", VDict person); ("location", VDict location)].

(** * Properties *)

(** ** Dicts *)

Section DictFacts.

Implicit Types (k : string) (v : value) (d : dict).

Lemma dict_get_notin k d : ~ In k (keys d) -> dict_get k d = None.
Proof.
  induction d as [|[k' v'] d IH]; simpl; intros H; [reflexivity|].
  destruct (String.eqb_spec k k') as [->|_].
  - exfalso. apply H. now left.
  - apply IH. intros Hin. apply H. now right.
Qed.

Lemma dict_get_in k d : In k (keys d) -> exists v, dict_get k d = Some v.
Proof.
  induction d as [|[k' v'] d IH]; simpl; intros H; [contradiction|].
  destruct (String.eqb_spec k k') as [->|Hne].
  - now exists v'.
  - destruct H as [H|H]; [congruence | now apply IH].
Qed.

Lemma dict_mem_keys k d : dict_mem k d = str_mem k (keys d).
Proof.
  unfold dict_mem, str_mem.
  induction d as [|[k' v'] d IH]; simpl; [reflexivity|].
  destruct (String.eqb k k'); [reflexivity | exact IH].
Qed.

Lemma str_mem_In k (l : list string) : str_mem k l = true <-> In k l.
Proof.
  unfold str_mem. rewrite existsb_exists. split.
  - intros [x [Hin Heq]]. apply String.eqb_eq in Heq. now subst.
  - intros Hin. exists k. split; [assumption | apply String.eqb_refl].
Qed.

Lemma dict_get_app k d1 d2 :
  In k (keys d1) -> dict_get k (d1 ++ d2) = dict_get k d1.
Proof.
  induction d1 as [|[k' v'] d1 IH]; simpl; intros H; [contradiction|].
  destruct (String.eqb_spec k k') as [->|Hne]; [reflexivity|].
  destruct H as [H|H]; [congruence | now apply IH].
Qed.

Lemma dict_get_set_same k v d : dict_get k (dict_set k v d) = Some v.
Proof.
  induction d as [|[k' v'] d IH]; simpl.
  - now rewrite String.eqb_refl.
  - destruct (String.eqb_spec k k') as [->|Hne]; simpl.
    + now rewrite String.eqb_refl.
    + apply String.eqb_neq in Hne. now rewrite Hne.
Qed.

Lemma dict_get_set_other k k' v d :
  k <> k' -> dict_get k' (dict_set k v d) = dict_get k' d.
Proof.
  intros Hne.
  induction d as [|[k0 v0] d IH]; simpl.
  - assert (H : String.eqb k' k = false)
      by (apply String.eqb_neq; congruence).
    now rewrite H.
  - destruct (String.eqb_spec k k0) as [->|Hk]; simpl.
    + assert (H : String.eqb k' k0 = false)
        by (apply String.eqb_neq; congruence).
      now rewrite H.
    + destruct (String.eqb k' k0); [reflexivity | exact IH].
Qed.

Lemma dict_mem_set_other k k' v d :
  k <> k' -> dict_mem k' (dict_set k v d) = dict_mem k' d.
Proof.
  intros H. unfold dict_mem. now rewrite dict_get_set_other.
Qed.

Lemma keys_dict_set k v d :
  keys (dict_set k v d) =
  if dict_mem k d then keys d else (keys d ++ [k]).
Proof.
  unfold dict_mem.
  induction d as [|[k' v'] d IH]; simpl; [reflexivity|].
  destruct (String.eqb_spec k k') as [->|Hne]; simpl; [reflexivity|].
  rewrite IH. now destruct (dict_get k d).
Qed.

(** After [d1.update(d2)] a key holds the value of [d2] when [d2] has
    it, and the value it had in [d1] otherwise. *)
Lemma dict_get_update k d2 : forall d1,
  NoDup (keys d2) ->
  dict_get k (dict_update d1 d2) =
  match dict_get k d2 with
  | Some v => Some v
  | None => dict_get k d1
  end.
Proof.
  unfold dict_update.
  induction d2 as [|[k2 v2] d2 IH]; intros d1 Hnd; simpl; [reflexivity|].
  inversion Hnd as [|? ? Hnotin Hnd']; subst.
  rewrite (IH _ Hnd').
  destruct (String.eqb_spec k k2) as [->|Hne].
  - rewrite (dict_get_notin _ _ Hnotin). apply dict_get_set_same.
  - destruct (dict_get k d2); [reflexivity|].
    apply dict_get_set_other. congruence.
Qed.

(** The keys of [d1] stay where they are; the keys that only [d2] has
    follow, in the order of [d2]. *)
Lemma keys_update d2 : forall d1,
  NoDup (keys d2) ->
  keys (dict_update d1 d2) =
  (keys d1 ++ filter (fun k => negb (dict_mem k d1)) (keys d2)).
Proof.
  unfold dict_update.
  induction d2 as [|[k2 v2] d2 IH]; intros d1 Hnd; simpl.
  - now rewrite app_nil_r.
  - inversion Hnd as [|? ? Hnotin Hnd']; subst.
    rewrite (IH _ Hnd'), keys_dict_set.
    assert (Hext :
      filter (fun k => negb (dict_mem k (dict_set k2 v2 d1))) (keys d2) =
      filter (fun k => negb (dict_mem k d1)) (keys d2)).
    { apply filter_ext_in. intros k Hin.
      rewrite dict_mem_set_other; [reflexivity|].
      intros ->. contradiction. }
    rewrite Hext.
    destruct (dict_mem k2 d1); simpl; [reflexivity|].
    now rewrite <- app_assoc.
Qed.

End DictFacts.

(** ** The validator *)

Section ValidatorFacts.

Implicit Types (f : field) (s : schema) (raw vals : dict).

Lemma coerce_fixed t r v : coerce t r = inr v -> coerce t v = inr v.
Proof.
  destruct t, r; simpl; try discriminate; try (now intros [= <-]).
  - match goal with
    | |- context [int_of_str ?x] => destruct (int_of_str x)
    end; [now intros [= <-] | discriminate].
  - match goal with
    | |- context [p ?x] => destruct (p x) eqn:Hp
    end; [|discriminate].
    intros [= <-]. simpl. now rewrite Hp.
Qed.

Lemma coerce_not_none t r : coerce t r <> inr VNone.
Proof.
  destruct t, r; simpl; try discriminate.
  - match goal with
    | |- context [int_of_str ?x] => destruct (int_of_str x)
    end; discriminate.
  - match goal with
    | |- context [p ?x] => destruct (p x)
    end; discriminate.
Qed.

Lemma check_constraints_id f v w :
  check_constraints f v = inr w -> w = v.
Proof.
  unfold check_constraints.
  destruct v as [|b|n|x|d]; try (now intros [= <-]).
  - destruct (check_bounds (info f) n); [discriminate | now intros [= <-]].
  - destruct (ty f) as [| | |literals|p];
      try (destruct (check_length (info f) x);
           [discriminate | now intros [= <-]]).
    destruct (str_mem x literals); [now intros [= <-] | discriminate].
Qed.

(** A value that came out of the validation of a field passes it
    unchanged. *)
Lemma validate_field_fixed f r v :
  default_ok f ->
  validate_field f r = inr v -> validate_field f (Some v) = inr v.
Proof.
  intros Hd. unfold validate_field at 1.
  destruct r as [r|].
  - destruct r.
    + destruct (optional f) eqn:Ho; [|discriminate].
      intros [= <-]. simpl. now rewrite Ho.
    + destruct (coerce (ty f) (VBool b)) as [e|w] eqn:Hc; [discriminate|].
      intros Hk. pose proof (check_constraints_id _ _ _ Hk) as ->.
      pose proof (coerce_fixed _ _ _ Hc) as Hc'.
      destruct w; simpl; try (rewrite Hc'; exact Hk).
      exfalso. exact (coerce_not_none _ _ Hc).
    + destruct (coerce (ty f) (VInt z)) as [e|w] eqn:Hc; [discriminate|].
      intros Hk. pose proof (check_constraints_id _ _ _ Hk) as ->.
      pose proof (coerce_fixed _ _ _ Hc) as Hc'.
      destruct w; simpl; try (rewrite Hc'; exact Hk).
      exfalso. exact (coerce_not_none _ _ Hc).
    + destruct (coerce (ty f) (VStr s)) as [e|w] eqn:Hc; [discriminate|].
      intros Hk. pose proof (check_constraints_id _ _ _ Hk) as ->.
      pose proof (coerce_fixed _ _ _ Hc) as Hc'.
      destruct w; simpl; try (rewrite Hc'; exact Hk).
      exfalso. exact (coerce_not_none _ _ Hc).
    + destruct (coerce (ty f) (VDict d)) as [e|w] eqn:Hc; [discriminate|].
      intros Hk. pose proof (check_constraints_id _ _ _ Hk) as ->.
      pose proof (coerce_fixed _ _ _ Hc) as Hc'.
      destruct w; simpl; try (rewrite Hc'; exact Hk).
      exfalso. exact (coerce_not_none _ _ Hc).
  - unfold default_ok in Hd.
    destruct (default (info f)); [discriminate|].
    now intros [= <-].
Qed.

(** Validation reads the raw mapping only at the names of the schema. *)
Lemma validate_fields_ext s raw raw' :
  (forall f, In f s -> dict_get (name f) raw = dict_get (name f) raw') ->
  validate_fields s raw = validate_fields s raw'.
Proof.
  induction s as [|f s IH]; intros H; simpl; [reflexivity|].
  rewrite IH by (intros g Hg; apply H; now right).
  rewrite (H f) by now left.
  reflexivity.
Qed.

Lemma validate_fields_app s1 s2 raw :
  validate_fields (s1 ++ s2) raw =
  ((fst (validate_fields s1 raw) ++ fst (validate_fields s2 raw)),
   (snd (validate_fields s1 raw) ++ snd (validate_fields s2 raw))).
Proof.
  induction s1 as [|f s1 IH]; simpl.
  - now destruct (validate_fields s2 raw).
  - rewrite IH.
    destruct (validate_fields s1 raw) as [e1 v1].
    destruct (validate_fields s2 raw) as [e2 v2]. simpl.
    now destruct (validate_field f (dict_get (name f) raw)).
Qed.

(** A Validated Entity has the fields of its schema, in its order. *)
Lemma validate_fields_keys s raw : forall vals,
  validate_fields s raw = ([], vals) -> keys vals = field_names s.
Proof.
  induction s as [|f s IH]; simpl; intros vals H.
  - now injection H as <-.
  - destruct (validate_fields s raw) as [errs vals'].
    destruct (validate_field f (dict_get (name f) raw)); [discriminate|].
    injection H as -> <-. simpl. f_equal. now apply IH.
Qed.

Lemma validate_model_inr s raw vals :
  validate_model s raw = inr vals <-> validate_fields s raw = ([], vals).
Proof.
  unfold validate_model.
  destruct (validate_fields s raw) as [[|e errs] vals']; split;
    intros H; try discriminate; now injection H as <-.
Qed.

Lemma validate_model_keys s raw vals :
  validate_model s raw = inr vals -> keys vals = field_names s.
Proof.
  intros H. apply validate_model_inr in H.
  exact (validate_fields_keys _ _ _ H).
Qed.

(** Each field of a Validated Entity holds the validated value of the
    raw field. *)
Lemma validate_fields_get s raw : forall vals f,
  NoDup (field_names s) ->
  validate_fields s raw = ([], vals) ->
  In f s ->
  exists v, validate_field f (dict_get (name f) raw) = inr v /\
            dict_get (name f) vals = Some v.
Proof.
  induction s as [|g s IH]; simpl; intros vals f Hnd H Hin;
    [contradiction|].
  inversion Hnd as [|? ? Hnotin Hnd']; subst.
  destruct (validate_fields s raw) as [errs vals'] eqn:Hs.
  destruct (validate_field g (dict_get (name g) raw)) as [e|v] eqn:Hg;
    [discriminate|].
  injection H as -> <-.
  destruct Hin as [->|Hin].
  - exists v. split; [assumption|]. simpl. now rewrite String.eqb_refl.
  - destruct (IH vals' f Hnd' eq_refl Hin) as [w [Hw Hget]].
    exists w. split; [assumption|]. simpl.
    destruct (String.eqb_spec (name f) (name g)) as [Heq|_];
      [|assumption].
    exfalso. apply Hnotin. rewrite <- Heq. now apply in_map.
Qed.

(** Validating a Validated Entity against its own schema gives it
    back. *)
Lemma validate_fields_fixed s raw : forall vals,
  NoDup (field_names s) ->
  Forall default_ok s ->
  validate_fields s raw = ([], vals) ->
  validate_fields s vals = ([], vals).
Proof.
  induction s as [|f s IH]; simpl; intros vals Hnd Hok H.
  - now injection H as <-.
  - inversion Hnd as [|? ? Hnotin Hnd']; subst.
    inversion Hok as [|? ? Hf Hok']; subst.
    destruct (validate_fields s raw) as [errs vals'] eqn:Hs.
    destruct (validate_field f (dict_get (name f) raw)) as [e|v] eqn:Hv;
      [discriminate|].
    injection H as -> <-.
    assert (Hext : validate_fields s ((name f, v) :: vals')
                   = validate_fields s vals').
    { apply validate_fields_ext. intros g Hg. simpl.
      destruct (String.eqb_spec (name g) (name f)) as [Heq|_];
        [|reflexivity].
      exfalso. apply Hnotin. rewrite <- Heq. now apply in_map. }
    rewrite Hext, (IH vals' Hnd' Hok' eq_refl). simpl.
    rewrite String.eqb_refl.
    now rewrite (validate_field_fixed _ _ _ Hf Hv).
Qed.

(** A required field that the raw mapping lacks is reported missing,
    whatever the other fields hold. *)
Lemma validate_fields_missing s raw f :
  In f s ->
  default (info f) = Required ->
  dict_get (name f) raw = None ->
  In ([name f], MissingField) (fst (validate_fields s raw)).
Proof.
  induction s as [|g s IH]; simpl; intros Hin Hreq Hget; [contradiction|].
  destruct (validate_fields s raw) as [errs vals] eqn:Hs.
  destruct Hin as [->|Hin].
  - rewrite Hget. unfold validate_field. rewrite Hreq. simpl. now left.
  - specialize (IH Hin Hreq Hget). simpl in IH.
    destruct (validate_field g (dict_get (name g) raw)); simpl;
      [now right | assumption].
Qed.

Lemma validate_model_missing s raw f :
  In f s ->
  default (info f) = Required ->
  dict_get (name f) raw = None ->
  exists errs, validate_model s raw = inl errs /\
               In ([name f], MissingField) errs.
Proof.
  intros Hin Hreq Hget.
  pose proof (validate_fields_missing s raw f Hin Hreq Hget) as H.
  unfold validate_model.
  destruct (validate_fields s raw) as [[|e errs] vals]; simpl in H;
    [contradiction|].
  now exists (e :: errs).
Qed.

End ValidatorFacts.

(** Projection through a schema that is a prefix of the inbound one:
    the entity splits into the projected part and the rest. *)
Lemma serialize_prefix (s1 s2 : schema) (raw vals : dict) :
  NoDup (field_names s1) ->
  Forall default_ok s1 ->
  validate_model (s1 ++ s2) raw = inr vals ->
  exists v1 v2,
    vals = v1 ++ v2 /\
    validate_model s1 raw = inr v1 /\
    validate_fields s2 raw = ([], v2) /\
    serialize_response s1 vals = inr v1.
Proof.
  intros Hnd Hok H.
  apply validate_model_inr in H.
  rewrite validate_fields_app in H.
  destruct (validate_fields s1 raw) as [e1 v1] eqn:H1.
  destruct (validate_fields s2 raw) as [e2 v2] eqn:H2.
  simpl in H. injection H as He <-.
  apply app_eq_nil in He. destruct He as [-> ->].
  exists v1, v2. repeat split.
  - apply validate_model_inr. exact H1.
  - unfold serialize_response. apply validate_model_inr.
    pose proof (validate_fields_keys _ _ _ H1) as Hk.
    rewrite (validate_fields_ext s1 (v1 ++ v2) v1).
    + now apply (validate_fields_fixed s1 raw).
    + intros f Hf. apply dict_get_app. rewrite Hk. now apply in_map.
Qed.

(** Reading back the decimal rendering of an integer. *)
Lemma int_of_str_of_int (z : Z) : int_of_str (str_of_int z) = Some z.
Proof.
  unfold int_of_str, str_of_int.
  rewrite NilZero.isi.
  - simpl. now rewrite DecimalZ.of_to.
  - destruct z; simpl; try discriminate.
    intros [= H]. now apply DecimalPos.Unsigned.to_uint_nonnil in H.
  - destruct z; simpl; try discriminate.
    intros [= H]. now apply DecimalPos.Unsigned.to_uint_nonnil in H.
Qed.

(** ** The declarations of main.py *)

Module MainFacts.

Import Main.

Lemma PersonBase_names :
  field_names PersonBase =
  ["first_name"; "last_name"; "age"; "hair_color"; "is_married"].
Proof. reflexivity. Qed.

Lemma Person_names :
  field_names Person =
  ["first_name"; "last_name"; "age"; "hair_color"; "is_married";
   "password"].
Proof. reflexivity. Qed.

Lemma Location_names : field_names Location = ["city"; "state"; "country"].
Proof. reflexivity. Qed.

Lemma NoDup_strings (l : list string) : distinct l = true -> NoDup l.
Proof.
  induction l as [|x l IH]; simpl; intros H; [constructor|].
  apply andb_true_iff in H. destruct H as [Hx Hl].
  constructor.
  - intros Hin. apply str_mem_In in Hin. now rewrite Hin in Hx.
  - now apply IH.
Qed.

Lemma PersonBase_nodup : NoDup (field_names PersonBase).
Proof. apply NoDup_strings. reflexivity. Qed.

Lemma Person_nodup : NoDup (field_names Person).
Proof. apply NoDup_strings. reflexivity. Qed.

Lemma Location_nodup : NoDup (field_names Location).
Proof. apply NoDup_strings. reflexivity. Qed.

Lemma LoginOut_nodup : NoDup (field_names LoginOut).
Proof. apply NoDup_strings. reflexivity. Qed.

Lemma PersonBase_defaults : Forall default_ok PersonBase.
Proof. repeat constructor. Qed.

Lemma LoginOut_defaults : Forall default_ok LoginOut.
Proof. repeat constructor. Qed.

End MainFacts.

(** ** Creating a person *)

Import Main.

(** C1.  For every valid Person body the response of the create-person
    operation is the person without its password: it has status 201, its
    keys are the five fields of PersonOut in their order, it has no
    [password] key, and each of its fields has the validated value.  In
    particular the body of Miguel Torres, 25, with password 12345678 gives
    the five fields with [hair_color] and [is_married] null. *)
Theorem create_person_hides_password
        (raw person : dict)
        (Hvalid : validate_model Person raw = inr person) :
  (exists content,
      create_person_operation (VDict raw)
      = JSONResponse HTTP_201_CREATED (VDict content) /\
      keys content
      = ["first_name"; "last_name"; "age"; "hair_color"; "is_married"] /\
      dict_mem "password" content = false /\
      (forall k, In k (keys content) ->
                 dict_get k content = dict_get k person)) /\
  create_person_operation (VDict miguel)
  = JSONResponse HTTP_201_CREATED (VDict miguel_out) /\
  dict_mem "password" miguel_out = false.
Proof.
  split; [|split; reflexivity].
  destruct (serialize_prefix PersonBase [password] raw person
              MainFacts.PersonBase_nodup MainFacts.PersonBase_defaults
              Hvalid)
    as [v1 [v2 [-> [H1 [_ Hs]]]]].
  exists v1.
  pose proof (validate_model_keys _ _ _ H1) as Hk.
  rewrite MainFacts.PersonBase_names in Hk.
  repeat split.
  - unfold create_person_operation, bind_body, create_person.
    rewrite Hvalid. unfold PersonOut. now rewrite Hs.
  - exact Hk.
  - rewrite dict_mem_keys, Hk. reflexivity.
  - intros k Hin. symmetry. now apply dict_get_app.
Qed.

Lemma create_person_hides_password_witness :
  validate_model Person miguel
  = inr (miguel_out ++ [("password", VStr "12345678")]) /\
  create_person_operation (VDict miguel)
  = JSONResponse HTTP_201_CREATED (VDict miguel_out).
Proof.
  split; [reflexivity|].
  exact (proj1 (proj2 (create_person_hides_password
                         miguel
                         (miguel_out ++ [("password", VStr "12345678")])
                         eq_refl))).
Defined.

(** C7.  When a Person body lacks one of the required fields
    [first_name], [last_name], [age], [password], validation produces no
    entity and reports that field missing, whatever the other fields hold;
    the create-person operation rejects the request with that failure. *)
Theorem person_required_field_missing
        (raw : dict) (f : field)
        (Hreq : In f [first_name; last_name; age; password])
        (Habsent : dict_get (name f) raw = None) :
  (exists errs, validate_model Person raw = inl errs /\
                In ([name f], MissingField) errs) /\
  (exists errs, create_person_operation (VDict raw)
                = RequestValidationError errs /\
                In (["body"; name f], MissingField) errs).
Proof.
  assert (Hin : In f Person).
  { simpl in Hreq. unfold Person, PersonBase. simpl.
    destruct Hreq as [<-|[<-|[<-|[<-|[]]]]]; auto 10. }
  assert (Hr : default (info f) = Required).
  { simpl in Hreq. destruct Hreq as [<-|[<-|[<-|[<-|[]]]]]; reflexivity. }
  destruct (validate_model_missing Person raw f Hin Hr Habsent)
    as [errs [Hv Herr]].
  split.
  - now exists errs.
  - exists (map (at_loc ["body"]) errs). split.
    + unfold create_person_operation, bind_body. now rewrite Hv.
    + change (["body"; name f], MissingField)
        with (at_loc ["body"] ([name f], MissingField)).
      now apply in_map.
Qed.

Lemma person_required_field_missing_witness :
  exists errs,
    validate_model Person
      [("first_name", VStr "Miguel"); ("last_name", VStr "Torres");
       ("age", VInt 25)] = inl errs /\
    In (["password"], MissingField) errs.
Proof.
  exact (proj1 (person_required_field_missing
                  [("first_name", VStr "Miguel"); ("last_name", VStr "Torres");
                   ("age", VInt 25)]
                  password
                  (or_intror (or_intror (or_intror (or_introl eq_refl))))
                  eq_refl)).
Defined.

(** C8.  Projection through PersonOut is idempotent: what the projection
    returns has the five fields of PersonOut, and projecting it again
    returns it unchanged. *)
Theorem PersonOut_projection_idempotent
        (entity out : dict)
        (Hout : serialize_response PersonOut entity = inr out) :
  serialize_response PersonOut out = inr out /\
  keys out = ["first_name"; "last_name"; "age"; "hair_color"; "is_married"].
Proof.
  unfold serialize_response in *.
  split.
  - apply validate_model_inr. apply validate_model_inr in Hout.
    exact (validate_fields_fixed PersonOut entity out
             MainFacts.PersonBase_nodup MainFacts.PersonBase_defaults Hout).
  - exact (validate_model_keys _ _ _ Hout).
Qed.

Lemma PersonOut_projection_idempotent_witness :
  serialize_response PersonOut miguel = inr miguel_out /\
  serialize_response PersonOut miguel_out = inr miguel_out.
Proof.
  split; [reflexivity|].
  exact (proj1 (PersonOut_projection_idempotent miguel miguel_out eq_refl)).
Defined.

(** ** Bounds *)

(** C2.  The [age] field of main.py has the bounds (0, 115]: 0 and 116
    are out of range, 1 and 115 pass, and an integer passes exactly when
    it is above 0 and at most 115.  In general a value at an inclusive
    bound ([ge], [le]) passes that bound and a value at an exclusive bound
    ([gt], [lt]) fails it. *)
Theorem age_bounds :
  validate_field age (Some (VInt 0)) = inl (OutOfRange (c_gt 0)) /\
  validate_field age (Some (VInt 116)) = inl (OutOfRange (c_le 115)) /\
  validate_field age (Some (VInt 1)) = inr (VInt 1) /\
  validate_field age (Some (VInt 115)) = inr (VInt 115) /\
  (forall n : Z,
      validate_field age (Some (VInt n)) =
      if 0 <? n then
        if n <=? 115 then inr (VInt n) else inl (OutOfRange (c_le 115))
      else inl (OutOfRange (c_gt 0))) /\
  (forall b : Z,
      check_ge (Some b) b = None /\
      check_le (Some b) b = None /\
      check_gt (Some b) b = Some (OutOfRange (c_gt b)) /\
      check_lt (Some b) b = Some (OutOfRange (c_lt b))) /\
  (forall (i : FieldInfo) (b : Z),
      check_bounds (with_gt b i) b = Some (OutOfRange (c_gt b)) /\
      check_bounds (with_le b (Field (default i))) b = None /\
      exists c, check_bounds (with_lt b i) b = Some (OutOfRange c)).
Proof.
  repeat split; try reflexivity.
  - intros n. unfold validate_field, age, check_constraints, check_bounds.
    simpl. destruct (0 <? n); [|reflexivity].
    now destruct (n <=? 115).
  - unfold check_ge. now rewrite Z.leb_refl.
  - unfold check_le. now rewrite Z.leb_refl.
  - unfold check_gt. now rewrite Z.ltb_irrefl.
  - unfold check_lt. now rewrite Z.ltb_irrefl.
  - unfold check_bounds, check_gt. simpl. now rewrite Z.ltb_irrefl.
  - unfold check_bounds, check_le. simpl. now rewrite Z.leb_refl.
  - unfold check_bounds, check_gt, check_ge, check_lt. simpl.
    destruct (gt i) as [g|]; [destruct (g <? b)|];
      try (eexists; reflexivity);
      (destruct (ge i) as [g'|]; [destruct (g' <=? b)|]);
      try (eexists; reflexivity);
      rewrite Z.ltb_irrefl; eexists; reflexivity.
Qed.

(** The earlier file declares the upper bound of [age] exclusive
    ([lt=115]): there 115 is out of range and 114 passes. *)
Lemma MainPtOne_age_bounds :
  validate_field MainPtOne.age (Some (VInt 0)) = inl (OutOfRange (c_gt 0)) /\
  validate_field MainPtOne.age (Some (VInt 1)) = inr (VInt 1) /\
  validate_field MainPtOne.age (Some (VInt 114)) = inr (VInt 114) /\
  validate_field MainPtOne.age (Some (VInt 115))
  = inl (OutOfRange (c_lt 115)).
Proof. repeat split. Qed.

(** ** Looking up a person *)

Lemma person_id_bound (person_id : Z) :
  0 < person_id ->
  bind_params "path" [person_id_param]
              [("person_id", VStr (str_of_int person_id))]
  = inr [("person_id", VInt person_id)].
Proof.
  intros Hpos.
  unfold bind_params, validate_model, validate_fields, validate_field.
  cbn [name person_id_param dict_get String.eqb Ascii.eqb Bool.eqb
       coerce ty].
  rewrite int_of_str_of_int.
  unfold check_constraints, check_bounds, check_gt.
  cbn [info person_id_param with_gt gt ge lt le Field first_failure
       check_ge check_lt check_le].
  apply Z.ltb_lt in Hpos. now rewrite Hpos.
Qed.

Lemma persons_mem (person_id : Z) :
  existsb (Z.eqb person_id) persons = true <-> In person_id persons.
Proof.
  rewrite existsb_exists. split.
  - intros [x [Hin Heq]]. apply Z.eqb_eq in Heq. now subst.
  - intros Hin. exists person_id. split; [assumption | apply Z.eqb_refl].
Qed.

(** C3.  For an identifier above 0 the show-person-by-id operation answers
    with the not-found rejection, status 404 and not the 422 of a
    validation failure, exactly when the identifier is not one of 1, 2, 3,
    4, 5, and with the found response otherwise; 123 is not found and 3 is
    found. *)
Theorem show_person_by_id_not_found
        (person_id : Z) (Hpos : 0 < person_id) :
  (show_person_by_id_operation (str_of_int person_id)
   = HTTPError HTTP_404_NOT_FOUND "¡This person doesn't exist!"
   <-> ~ In person_id [1; 2; 3; 4; 5]) /\
  (show_person_by_id_operation (str_of_int person_id)
   = JSONResponse HTTP_200_OK
                  (VDict [(str_of_int person_id, VStr "It exists!")])
   <-> In person_id [1; 2; 3; 4; 5]) /\
  status_of (show_person_by_id_operation (str_of_int person_id))
  <> HTTP_422_UNPROCESSABLE_ENTITY /\
  show_person_by_id_operation "123"
  = HTTPError HTTP_404_NOT_FOUND "¡This person doesn't exist!" /\
  show_person_by_id_operation "3"
  = JSONResponse HTTP_200_OK (VDict [("3", VStr "It exists!")]).
Proof.
  assert (Hop : show_person_by_id_operation (str_of_int person_id)
                = match show_person_by_id person_id with
                  | inl e => respond_exception e
                  | inr content => JSONResponse HTTP_200_OK (VDict content)
                  end).
  { unfold show_person_by_id_operation.
    now rewrite (person_id_bound _ Hpos). }
  rewrite Hop. unfold show_person_by_id.
  change [1; 2; 3; 4; 5] with persons.
  pose proof (persons_mem person_id) as Hmem.
  destruct (existsb (Z.eqb person_id) persons) eqn:He; simpl.
  - assert (Hin : In person_id persons) by now apply Hmem.
    simpl in Hin.
    repeat split; try discriminate; try reflexivity; try tauto.
  - assert (Hin : ~ In person_id persons).
    { intros H. apply Hmem in H. discriminate. }
    simpl in Hin.
    repeat split; try discriminate; try reflexivity; try tauto.
Qed.

Lemma show_person_by_id_not_found_witness :
  0 < 123 /\
  show_person_by_id_operation (str_of_int 123)
  = HTTPError HTTP_404_NOT_FOUND "¡This person doesn't exist!".
Proof.
  split; [lia|].
  apply (proj1 (show_person_by_id_not_found 123 eq_refl)).
  simpl. lia.
Defined.

(** ** Updating a person *)

Lemma MainPtOne_Person_names :
  field_names MainPtOne.Person =
  ["first_name"; "last_name"; "age"; "hair_color"; "is_married"].
Proof. reflexivity. Qed.

(** The keys of a merge of two entities whose key lists are known. *)
Lemma keys_update_known (d1 d2 : dict) (k1 k2 : list string) :
  keys d1 = k1 -> keys d2 = k2 -> distinct k2 = true ->
  keys (dict_update d1 d2)
  = k1 ++ filter (fun k => negb (str_mem k k1)) k2.
Proof.
  intros H1 H2 Hd.
  rewrite keys_update by (rewrite H2; now apply MainFacts.NoDup_strings).
  rewrite H1, H2. f_equal.
  apply filter_ext. intros k. now rewrite dict_mem_keys, H1.
Qed.

Lemma update_person_operation_valid
      (person_id : Z) (rp rl person location : dict) :
  0 < person_id ->
  validate_model Person rp = inr person ->
  validate_model Location rl = inr location ->
  update_person_operation (str_of_int person_id) (update_body rp rl)
  = JSONResponse HTTP_200_OK
                 (VDict (update_person person_id person location)).
Proof.
  intros Hpos Hp Hl.
  unfold update_person_operation, update_body.
  rewrite (person_id_bound _ Hpos).
  unfold bind_embedded.
  cbn [dict_get String.eqb Ascii.eqb Bool.eqb].
  now rewrite Hp, Hl.
Qed.

Lemma update_person_operation_valid_pt_one
      (person_id : Z) (rp rl person location : dict) :
  0 < person_id ->
  validate_model MainPtOne.Person rp = inr person ->
  validate_model MainPtOne.Location rl = inr location ->
  MainPtOne.update_person_operation (str_of_int person_id)
                                    (update_body rp rl)
  = JSONResponse HTTP_200_OK
                 (VDict (MainPtOne.update_person person_id person location)).
Proof.
  intros Hpos Hp Hl.
  unfold MainPtOne.update_person_operation, update_body.
  change MainPtOne.person_id_param with person_id_param.
  rewrite (person_id_bound _ Hpos).
  unfold bind_embedded.
  cbn [dict_get String.eqb Ascii.eqb Bool.eqb].
  now rewrite Hp, Hl.
Qed.

(** C4.  For valid Person and Location bodies the result of update-person
    has the fields of Person followed by the fields of Location and no
    other key, in main.py (nine keys) and in main_pt_one.py (eight); a key
    that Location supplies holds Location's value, any other key holds
    Person's.  Both operations answer 200 with that result. *)
Theorem update_person_merges
        (person_id : Z) (rp rl person location rp1 person1 : dict)
        (Hpos : 0 < person_id)
        (Hp : validate_model Person rp = inr person)
        (Hl : validate_model Location rl = inr location)
        (Hp1 : validate_model MainPtOne.Person rp1 = inr person1) :
  keys (update_person person_id person location)
  = field_names Person ++ field_names Location /\
  keys (update_person person_id person location)
  = ["first_name"; "last_name"; "age"; "hair_color"; "is_married";
     "password"; "city"; "state"; "country"] /\
  keys (MainPtOne.update_person person_id person1 location)
  = field_names MainPtOne.Person ++ field_names MainPtOne.Location /\
  keys (MainPtOne.update_person person_id person1 location)
  = ["first_name"; "last_name"; "age"; "hair_color"; "is_married";
     "city"; "state"; "country"] /\
  (forall k,
      dict_get k (update_person person_id person location)
      = match dict_get k location with
        | Some v => Some v
        | None => dict_get k person
        end) /\
  (forall k,
      dict_get k (MainPtOne.update_person person_id person1 location)
      = match dict_get k location with
        | Some v => Some v
        | None => dict_get k person1
        end) /\
  update_person_operation (str_of_int person_id) (update_body rp rl)
  = JSONResponse HTTP_200_OK
                 (VDict (update_person person_id person location)) /\
  MainPtOne.update_person_operation (str_of_int person_id)
                                    (update_body rp1 rl)
  = JSONResponse HTTP_200_OK
      (VDict (MainPtOne.update_person person_id person1 location)).
Proof.
  pose proof (validate_model_keys _ _ _ Hp) as Hkp.
  pose proof (validate_model_keys _ _ _ Hl) as Hkl.
  pose proof (validate_model_keys _ _ _ Hp1) as Hkp1.
  assert (Hnd : NoDup (keys location))
    by (rewrite Hkl; exact MainFacts.Location_nodup).
  assert (Hmain : keys (update_person person_id person location)
                  = field_names Person ++ field_names Location).
  { unfold update_person.
    rewrite (keys_update_known _ _ _ _ Hkp Hkl eq_refl). reflexivity. }
  assert (Hone : keys (MainPtOne.update_person person_id person1 location)
                 = field_names MainPtOne.Person
                   ++ field_names MainPtOne.Location).
  { unfold MainPtOne.update_person.
    rewrite (keys_update_known _ _ _ _ Hkp1 Hkl eq_refl). reflexivity. }
  repeat split.
  - exact Hmain.
  - exact Hmain.
  - exact Hone.
  - exact Hone.
  - intros k. unfold update_person. now apply dict_get_update.
  - intros k. unfold MainPtOne.update_person. now apply dict_get_update.
  - now apply update_person_operation_valid.
  - now apply update_person_operation_valid_pt_one.
Qed.

Lemma update_person_merges_witness :
  update_person_operation "123" (update_body miguel puerto_montt)
  = JSONResponse HTTP_200_OK
      (VDict (miguel_out ++ [("password", VStr "12345678")]
                         ++ puerto_montt)).
Proof.
  exact (proj1 (proj2 (proj2 (proj2 (proj2 (proj2 (proj2
    (update_person_merges
       123 miguel puerto_montt
       (miguel_out ++ [("password", VStr "12345678")]) puerto_montt
       miguel miguel_out
       eq_refl eq_refl eq_refl eq_refl)))))))).
Defined.

(** The raw value of a validated [password] is a string, and the entity
    holds it unchanged. *)
Lemma password_validated (r : option value) (v : value) :
  validate_field password r = inr v ->
  exists pw, r = Some (VStr pw) /\ v = VStr pw.
Proof.
  unfold validate_field.
  destruct r as [[| | |pw|]|]; simpl; try discriminate.
  intros H. exists pw. split; [reflexivity|].
  now apply (check_constraints_id password (VStr pw)).
Qed.

(** C9, counterexample.  In main_pt_one.py the Person schema declares no
    password: a valid body that submits one is accepted, and the response
    of update-person has no [password] key. *)
Lemma update_person_pt_one_drops_password :
  validate_model MainPtOne.Person miguel = inr miguel_out /\
  validate_model MainPtOne.Location puerto_montt = inr puerto_montt /\
  dict_get "password" miguel = Some (VStr "12345678") /\
  MainPtOne.update_person_operation "123" (update_body miguel puerto_montt)
  = JSONResponse HTTP_200_OK (VDict (miguel_out ++ puerto_montt)) /\
  dict_get "password" (miguel_out ++ puerto_montt) = None.
Proof. repeat split. Qed.

(** C9, as amended.  In main.py, for valid Person and Location bodies,
    the submitted password is a string and the response of update-person
    holds it under the key [password]; in main_pt_one.py, where Person
    declares no password, the result of update-person has no [password]
    key. *)
Theorem update_person_returns_password
        (person_id : Z) (rp rl person location rp1 person1 : dict)
        (Hpos : 0 < person_id)
        (Hp : validate_model Person rp = inr person)
        (Hl : validate_model Location rl = inr location)
        (Hp1 : validate_model MainPtOne.Person rp1 = inr person1) :
  (exists pw,
      dict_get "password" rp = Some (VStr pw) /\
      dict_get "password" (update_person person_id person location)
      = Some (VStr pw) /\
      update_person_operation (str_of_int person_id) (update_body rp rl)
      = JSONResponse HTTP_200_OK
                     (VDict (update_person person_id person location))) /\
  dict_get "password" (MainPtOne.update_person person_id person1 location)
  = None.
Proof.
  pose proof (validate_model_keys _ _ _ Hl) as Hkl.
  assert (Hnd : NoDup (keys location))
    by (rewrite Hkl; exact MainFacts.Location_nodup).
  assert (Hloc : dict_get "password" location = None).
  { apply dict_get_notin. rewrite Hkl. simpl.
    intros [H|[H|[H|[]]]]; discriminate. }
  split.
  - apply validate_model_inr in Hp.
    destruct (validate_fields_get Person rp person password
                MainFacts.Person_nodup Hp)
      as [v [Hv Hget]].
    { unfold Person. apply in_or_app. right. now left. }
    destruct (password_validated _ _ Hv) as [pw [Hraw ->]].
    exists pw. repeat split.
    + exact Hraw.
    + unfold update_person. rewrite dict_get_update by assumption.
      now rewrite Hloc.
    + apply update_person_operation_valid; try assumption.
      now apply validate_model_inr.
  - unfold MainPtOne.update_person.
    rewrite dict_get_update by assumption. rewrite Hloc.
    apply dict_get_notin.
    rewrite (validate_model_keys _ _ _ Hp1). simpl.
    intros [H|[H|[H|[H|[H|[]]]]]]; discriminate.
Qed.

Lemma update_person_returns_password_witness :
  dict_get "password"
           (MainPtOne.update_person 123 miguel_out puerto_montt) = None.
Proof.
  exact (proj2 (update_person_returns_password
                  123 miguel puerto_montt
                  (miguel_out ++ [("password", VStr "12345678")])
                  puerto_montt miguel miguel_out
                  eq_refl eq_refl eq_refl eq_refl)).
Defined.

(** ** Logging in *)

(** C5, counterexample.  [LoginOut] bounds the username by 20 characters
    and the form does not: with a username of 21 characters the
    construction of [LoginOut] fails inside the function and the client
    gets a server error, not the success message. *)
Lemma login_long_username_fails :
  String.length long_username = 21%nat /\
  login_operation (credentials long_username "12345678")
  = InternalServerError /\
  login_operation (credentials long_username "12345678")
  <> JSONResponse HTTP_200_OK
       (VDict [("username", VStr long_username);
               ("message", VStr "Login Succesfully!")]).
Proof. repeat split. discriminate. Qed.

(** C5, as amended.  For a username of at most 20 characters the response
    of the login operation is the username with the fixed message, under
    status 200 and without a [password] key; for every username, two
    requests that differ only in the password get the same response. *)
Theorem login_hides_password
        (username password : string)
        (Hlen : (String.length username <= 20)%nat) :
  login username password
  = inr [("username", VStr username);
         ("message", VStr "Login Succesfully!")] /\
  login_operation (credentials username password)
  = JSONResponse HTTP_200_OK
      (VDict [("username", VStr username);
              ("message", VStr "Login Succesfully!")]) /\
  dict_mem "password"
           [("username", VStr username);
            ("message", VStr "Login Succesfully!")] = false /\
  (forall u p1 p2 : string,
      login_operation (credentials u p1)
      = login_operation (credentials u p2)).
Proof.
  assert (Hle : Nat.leb (String.length username) 20 = true)
    by now apply Nat.leb_le.
  repeat split.
  - unfold login, validate_model. cbn. now rewrite Hle.
  - unfold login_operation, credentials, bind_params, login,
      serialize_response, validate_model.
    cbn. rewrite Hle. cbn. rewrite Hle. reflexivity.
Qed.

Lemma login_hides_password_witness :
  (String.length "miguel2021" <= 20)%nat /\
  login_operation (credentials "miguel2021" "12345678")
  = JSONResponse HTTP_200_OK
      (VDict [("username", VStr "miguel2021");
              ("message", VStr "Login Succesfully!")]).
Proof.
  split; [simpl; lia|].
  apply (proj2 (login_hides_password "miguel2021" "12345678"
                  ltac:(simpl; lia))).
Defined.

(** ** Contact *)

(** The failure of one field is among the failures of the request,
    whatever the other fields hold. *)
Lemma validate_fields_failure (s : schema) (raw : dict) (f : field)
      (e : failure) :
  In f s ->
  validate_field f (dict_get (name f) raw) = inl e ->
  In ([name f], e) (fst (validate_fields s raw)).
Proof.
  induction s as [|g s IH]; simpl; intros Hin Hf; [contradiction|].
  destruct (validate_fields s raw) as [errs vals] eqn:Hs.
  destruct Hin as [->|Hin].
  - rewrite Hf. simpl. now left.
  - specialize (IH Hin Hf). simpl in IH.
    destruct (validate_field g (dict_get (name g) raw)); simpl;
      [now right | assumption].
Qed.

Lemma bind_params_failure (source : string) (s : schema) (raw : dict)
      (f : field) (e : failure) :
  In f s ->
  validate_field f (dict_get (name f) raw) = inl e ->
  exists errs, bind_params source s raw = inl errs /\
               In ([source; name f], e) errs.
Proof.
  intros Hin Hf.
  pose proof (validate_fields_failure s raw f e Hin Hf) as H.
  unfold bind_params, validate_model.
  destruct (validate_fields s raw) as [[|e0 errs] vals]; simpl in H;
    [contradiction|].
  exists (map (at_loc [source]) (e0 :: errs)). split; [reflexivity|].
  change ([source; name f], e) with (at_loc [source] ([name f], e)).
  now apply in_map.
Qed.

Section ContactFacts.

Variable valid_email : string -> bool.

(** C6.  The [message] field of the contact form has [min_length=20]:
    a message of fewer than 20 characters fails with the length
    violation of that bound, and the operation rejects the request with
    that failure at the [message] field; a message of exactly 20
    characters passes.  In general a string whose length is the bound
    passes [min_length] and [max_length], a string one character short
    fails [min_length] and a string one character over fails
    [max_length]. *)
Theorem contact_message_min_length
        (form headers cookies : dict) (text : string)
        (Hmsg : dict_get "message" form = Some (VStr text)) :
  ((String.length text < 20)%nat ->
   validate_field contact_message (Some (VStr text))
   = inl (LengthViolation (c_min_length 20)) /\
   exists errs,
     contact_operation valid_email form headers cookies
     = RequestValidationError errs /\
     In (["body"; "message"], LengthViolation (c_min_length 20)) errs) /\
  ((String.length text = 20)%nat ->
   validate_field contact_message (Some (VStr text)) = inr (VStr text)) /\
  (forall (t : string) (c : ascii),
      check_min_length (Some (String.length t)) t = None /\
      check_max_length (Some (String.length t)) t = None /\
      check_min_length (Some (S (String.length t))) t
      = Some (LengthViolation (c_min_length (S (String.length t)))) /\
      check_max_length (Some (String.length t)) (String c t)
      = Some (LengthViolation (c_max_length (String.length t)))).
Proof.
  assert (Hfield : forall t,
             validate_field contact_message (Some (VStr t))
             = if Nat.leb 20 (String.length t) then inr (VStr t)
               else inl (LengthViolation (c_min_length 20))).
  { intros t. unfold validate_field, contact_message, check_constraints,
      check_length, check_min_length.
    cbn -[Nat.leb String.length].
    now destruct (Nat.leb 20 (String.length t)). }
  split; [|split].
  - intros Hshort.
    assert (Hfail : validate_field contact_message (Some (VStr text))
                    = inl (LengthViolation (c_min_length 20))).
    { rewrite Hfield.
      assert (H : Nat.leb 20 (String.length text) = false)
        by (apply Nat.leb_gt; exact Hshort).
      now rewrite H. }
    split; [exact Hfail|].
    destruct (bind_params_failure
                "body" (contact_form valid_email) form contact_message
                (LengthViolation (c_min_length 20)))
      as [errs [Hb Hin]].
    + unfold contact_form. simpl. auto.
    + change (name contact_message) with "message".
      rewrite Hmsg. exact Hfail.
    + unfold contact_operation. rewrite Hb.
      eexists. split; [reflexivity|].
      apply in_or_app. left. exact Hin.
  - intros Hlen. rewrite Hfield, Hlen. reflexivity.
  - intros t c. unfold check_min_length, check_max_length.
    rewrite Nat.leb_refl.
    assert (H : Nat.leb (S (String.length t)) (String.length t) = false)
      by (apply Nat.leb_gt; lia).
    simpl String.length. rewrite H. repeat split.
Qed.

(** C10.  For a request whose form, header and cookie pass validation
    the response of the contact operation is the [user-agent] header,
    null when the header is absent, under status 200; a second valid
    request with the same headers and another form and cookie gets the
    same response. *)
Theorem contact_returns_user_agent
        (form headers cookies form' cookies' f h c f' c' : dict)
        (Hf : validate_model (contact_form valid_email) form = inr f)
        (Hh : validate_model contact_headers headers = inr h)
        (Hc : validate_model contact_cookies cookies = inr c)
        (Hf' : validate_model (contact_form valid_email) form' = inr f')
        (Hc' : validate_model contact_cookies cookies' = inr c') :
  contact_operation valid_email form headers cookies
  = JSONResponse HTTP_200_OK
      (match dict_get "user-agent" headers with
       | Some user_agent => user_agent
       | None => VNone
       end) /\
  contact_operation valid_email form' headers cookies'
  = contact_operation valid_email form headers cookies.
Proof.
  assert (Hop : forall fm ck a b,
             validate_model (contact_form valid_email) fm = inr a ->
             validate_model contact_cookies ck = inr b ->
             contact_operation valid_email fm headers ck
             = JSONResponse HTTP_200_OK (arg "user-agent" h)).
  { intros fm ck a b Ha Hb.
    unfold contact_operation, bind_params.
    now rewrite Ha, Hh, Hb. }
  assert (Harg : arg "user-agent" h
                 = match dict_get "user-agent" headers with
                   | Some user_agent => user_agent
                   | None => VNone
                   end).
  { apply validate_model_inr in Hh.
    unfold contact_headers, validate_fields, validate_field in Hh.
    cbn [name default info Field optional ty] in Hh.
    destruct (dict_get "user-agent" headers) as [[| | |ua|]|];
      cbn in Hh; try discriminate;
      injection Hh as <-; reflexivity. }
  split.
  - rewrite (Hop form cookies f c Hf Hc). now rewrite Harg.
  - rewrite (Hop form cookies f c Hf Hc).
    now rewrite (Hop form' cookies' f' c' Hf' Hc').
Qed.

End ContactFacts.

Lemma contact_message_min_length_witness :
  (String.length "too short" < 20)%nat /\
  validate_field contact_message (Some (VStr "too short"))
  = inl (LengthViolation (c_min_length 20)) /\
  (String.length twenty = 20)%nat /\
  validate_field contact_message (Some (VStr twenty)) = inr (VStr twenty).
Proof.
  split; [simpl; lia|]. split.
  - apply (proj1 (contact_message_min_length
                    (fun _ => true) (contact_request "too short") [] []
                    "too short" eq_refl)).
    simpl; lia.
  - split; [reflexivity|].
    apply (proj1 (proj2 (contact_message_min_length
                           (fun _ => true) (contact_request twenty) [] []
                           twenty eq_refl))).
    reflexivity.
Defined.

Lemma contact_returns_user_agent_witness :
  contact_operation (fun _ => true) (contact_request twenty)
                    [("user-agent", VStr "me")] []
  = JSONResponse HTTP_200_OK (VStr "me") /\
  contact_operation (fun _ => true)
                    (contact_request "a message of sufficient length")
                    [("user-agent", VStr "me")]
                    [("ads", VStr "Cookies values")]
  = contact_operation (fun _ => true) (contact_request twenty)
                      [("user-agent", VStr "me")] [].
Proof.
  exact (contact_returns_user_agent
           (fun _ => true)
           (contact_request twenty) [("user-agent", VStr "me")] []
           (contact_request "a message of sufficient length")
           [("ads", VStr "Cookies values")]
           (contact_request twenty) [("user-agent", VStr "me")]
           [("ads", VNone)]
           (contact_request "a message of sufficient length")
           [("ads", VStr "Cookies values")]
           eq_refl eq_refl eq_refl eq_refl eq_refl).
Defined.

(** * Further properties of the path operations *)

(** ** Looking up a person, over all identifiers *)

Lemma person_id_rejected (person_id : Z) :
  person_id <= 0 ->
  bind_params "path" [person_id_param]
              [("person_id", VStr (str_of_int person_id))]
  = inl [(["path"; "person_id"], OutOfRange (c_gt 0))].
Proof.
  intros Hneg.
  unfold bind_params, validate_model, validate_fields, validate_field.
  cbn [name person_id_param dict_get String.eqb Ascii.eqb Bool.eqb
       coerce ty].
  rewrite int_of_str_of_int.
  unfold check_constraints, check_bounds, check_gt.
  cbn [info person_id_param with_gt gt ge lt le Field first_failure
       check_ge check_lt check_le].
  assert (H : (0 <? person_id) = false) by (apply Z.ltb_ge; lia).
  now rewrite H.
Qed.

(** X1.  The answer of main.py's show-person-by-id for every integer: an
    identifier of 0 or less is rejected by validation before the lookup,
    1 to 5 are found, and every identifier from 6 on is not found. *)
Theorem show_person_by_id_by_range (person_id : Z) :
  show_person_by_id_operation (str_of_int person_id)
  = if person_id <=? 0 then
      RequestValidationError [(["path"; "person_id"], OutOfRange (c_gt 0))]
    else if person_id <=? 5 then
      JSONResponse HTTP_200_OK
                   (VDict [(str_of_int person_id, VStr "It exists!")])
    else
      HTTPError HTTP_404_NOT_FOUND "¡This person doesn't exist!".
Proof.
  unfold show_person_by_id_operation.
  destruct (Z.leb_spec person_id 0) as [Hle|Hgt].
  - now rewrite (person_id_rejected _ Hle).
  - rewrite (person_id_bound _ Hgt).
    cbn [dict_get String.eqb Ascii.eqb Bool.eqb].
    unfold show_person_by_id.
    destruct (Z.leb_spec person_id 5) as [Hle5|Hgt5].
    + assert (Hin : existsb (Z.eqb person_id) persons = true).
      { apply persons_mem. unfold persons. simpl. lia. }
      now rewrite Hin.
    + assert (Hout : existsb (Z.eqb person_id) persons = false).
      { destruct (existsb (Z.eqb person_id) persons) eqn:He;
          [|reflexivity].
        apply persons_mem in He. unfold persons in He. simpl in He. lia. }
      now rewrite Hout.
Qed.

(** X2.  The show-person-by-id of main_pt_one.py has no lookup: every
    identifier above 0 is answered as existing, also 6 and above, an
    identifier of 0 or less is rejected by validation, and no path segment
    at all gets a 404. *)
Theorem show_person_by_id_pt_one_always_exists
        (person_id : Z) (segment : string) :
  MainPtOne.show_person_by_id_operation (str_of_int person_id)
  = (if person_id <=? 0 then
       RequestValidationError
         [(["path"; "person_id"], OutOfRange (c_gt 0))]
     else
       JSONResponse HTTP_200_OK
                    (VDict [(str_of_int person_id, VStr "It exists!")])) /\
  status_of (MainPtOne.show_person_by_id_operation segment)
  <> HTTP_404_NOT_FOUND.
Proof.
  split.
  - unfold MainPtOne.show_person_by_id_operation.
    change MainPtOne.person_id_param with person_id_param.
    destruct (Z.leb_spec person_id 0) as [Hle|Hgt].
    + now rewrite (person_id_rejected _ Hle).
    + now rewrite (person_id_bound _ Hgt).
  - unfold MainPtOne.show_person_by_id_operation.
    destruct (bind_params "path" [MainPtOne.person_id_param]
                          [("person_id", VStr segment)]) as [errs|args];
      [discriminate|].
    destruct (dict_get "person_id" args) as [[| | z| |]|]; discriminate.
Qed.

(** ** The age bounds of the two files *)

(** X3.  An age that main_pt_one.py accepts is accepted by main.py, and 115 is
    the one integer that main.py accepts and main_pt_one.py rejects. *)
Theorem age_accepted_by_both_but_115 (n : Z) :
  validate_field MainPtOne.age (Some (VInt n))
  = (if (0 <? n) && (n <? 115) then inr (VInt n)
     else inl (OutOfRange (if 0 <? n then c_lt 115 else c_gt 0))) /\
  (validate_field MainPtOne.age (Some (VInt n)) = inr (VInt n) ->
   validate_field age (Some (VInt n)) = inr (VInt n)) /\
  (validate_field age (Some (VInt n)) = inr (VInt n) /\
   validate_field MainPtOne.age (Some (VInt n)) <> inr (VInt n)
   <-> n = 115).
Proof.
  assert (Hone : validate_field MainPtOne.age (Some (VInt n))
                 = if (0 <? n) && (n <? 115) then inr (VInt n)
                   else inl (OutOfRange
                               (if 0 <? n then c_lt 115 else c_gt 0))).
  { unfold validate_field, MainPtOne.age, check_constraints, check_bounds.
    simpl. destruct (0 <? n); [|reflexivity]. now destruct (n <? 115). }
  assert (Hmain : validate_field age (Some (VInt n))
                  = if (0 <? n) && (n <=? 115) then inr (VInt n)
                    else inl (OutOfRange
                                (if 0 <? n then c_le 115 else c_gt 0))).
  { unfold validate_field, age, check_constraints, check_bounds.
    simpl. destruct (0 <? n); [|reflexivity]. now destruct (n <=? 115). }
  rewrite Hone, Hmain.
  destruct (Z.ltb_spec 0 n), (Z.ltb_spec n 115), (Z.leb_spec n 115);
    simpl; repeat split; try discriminate; try lia; try reflexivity;
    try (intros _; discriminate);
    intros [Ha Hb]; first [discriminate | lia | exfalso; now apply Hb].
Qed.

Lemma age_accepted_by_both_but_115_witness :
  validate_field age (Some (VInt 114)) = inr (VInt 114).
Proof.
  exact (proj1 (proj2 (age_accepted_by_both_but_115 114)) eq_refl).
Defined.

(** ** The twitter details of main_pt_one.py *)

Lemma append_length (a b : string) :
  String.length (String.append a b)
  = (String.length a + String.length b)%nat.
Proof.
  induction a as [|c a IH]; simpl; [reflexivity | now rewrite IH].
Qed.

Lemma append_cancel_r (t : string) : forall a b : string,
  String.append a t = String.append b t -> a = b.
Proof.
  induction a as [|c a IH]; intros b H.
  - destruct b as [|d b]; [reflexivity|].
    apply (f_equal String.length) in H. simpl in H.
    rewrite append_length in H. lia.
  - destruct b as [|d b].
    + apply (f_equal String.length) in H. simpl in H.
      rewrite append_length in H. lia.
    + simpl in H. injection H as -> H. f_equal. now apply IH.
Qed.

(** X4.  The text of the twitter details holds the identifier as it came in the
    path, 16 characters longer, and two identifiers with the same text are
    the same identifier. *)
Theorem twitter_text_determines_id (id id' : string) :
  (exists text,
      MainPtOne.twitter id = [("twitter", VStr text)] /\
      String.length text = (String.length id + 16)%nat) /\
  (MainPtOne.twitter_operation id = MainPtOne.twitter_operation id' ->
   id = id').
Proof.
  split.
  - eexists. split; [reflexivity|].
    simpl. rewrite append_length. simpl. lia.
  - unfold MainPtOne.twitter_operation, MainPtOne.twitter.
    intros H. injection H as H.
    apply (append_cancel_r " text"). exact H.
Qed.

Lemma twitter_text_determines_id_witness :
  MainPtOne.twitter_operation "77"
  = JSONResponse HTTP_200_OK (VDict [("twitter", VStr "twitter id 77 text")])
  /\ "77" = "77".
Proof.
  split; [reflexivity|].
  exact (proj2 (twitter_text_determines_id "77" "77") eq_refl).
Defined.

(** ** Creating a person: what is accepted and what comes back *)

Lemma bind_body_failure (s : schema) (raw : dict) (f : field)
      (e : failure) :
  In f s ->
  validate_field f (dict_get (name f) raw) = inl e ->
  exists errs, bind_body s (VDict raw) = inl errs /\
               In (["body"; name f], e) errs.
Proof.
  intros Hin Hf.
  pose proof (validate_fields_failure s raw f e Hin Hf) as H.
  unfold bind_body, validate_model.
  destruct (validate_fields s raw) as [[|e0 errs] vals]; simpl in H;
    [contradiction|].
  exists (map (at_loc ["body"]) (e0 :: errs)). split; [reflexivity|].
  change (["body"; name f], e) with (at_loc ["body"] ([name f], e)).
  now apply in_map.
Qed.

Lemma create_person_rejects (raw : dict) (f : field) (e : failure) :
  In f Person ->
  validate_field f (dict_get (name f) raw) = inl e ->
  exists errs, create_person_operation (VDict raw)
               = RequestValidationError errs /\
               In (["body"; name f], e) errs.
Proof.
  intros Hin Hf.
  destruct (bind_body_failure Person raw f e Hin Hf) as [errs [Hb Herr]].
  exists errs. split; [|exact Herr].
  unfold create_person_operation. now rewrite Hb.
Qed.

Lemma bind_body_errors_nonempty (s : schema) (body : value)
      (errs : list error) :
  bind_body s body = inl errs -> errs <> [].
Proof.
  unfold bind_body, validate_model.
  destruct body as [| | | |raw]; try (intros [= <-]; discriminate).
  destruct (validate_fields s raw) as [[|e0 es] vals]; [discriminate|].
  intros [= <-]. discriminate.
Qed.

(** X5.  Whatever the body, main.py's create-person answers 201 with a JSON
    object or rejects the request with at least one validation failure:
    the projection of a validated Person through PersonOut cannot fail, so
    there is no server error. *)
Theorem create_person_created_or_rejected (body : value) :
  (exists content,
      create_person_operation body
      = JSONResponse HTTP_201_CREATED (VDict content)) \/
  (exists errs,
      create_person_operation body = RequestValidationError errs /\
      errs <> []).
Proof.
  unfold create_person_operation.
  destruct (bind_body Person body) as [errs|person] eqn:Hb.
  - right. exists errs. split; [reflexivity|].
    exact (bind_body_errors_nonempty _ _ _ Hb).
  - left. unfold bind_body in Hb.
    destruct body as [| | | |raw]; try discriminate.
    destruct (validate_model Person raw) as [errs|p] eqn:Hv;
      [discriminate|].
    injection Hb as <-.
    destruct (serialize_prefix PersonBase [password] raw p
                MainFacts.PersonBase_nodup MainFacts.PersonBase_defaults Hv)
      as [v1 [v2 [-> [_ [_ Hs]]]]].
    exists v1. unfold create_person, PersonOut. now rewrite Hs.
Qed.

(** X6.  What main.py's create-person returns is never a body it accepts:
    posted back, the response is rejected because [password] is
    missing. *)
Theorem create_person_response_not_accepted
        (body content : value) (status : Z)
        (Hcreated : create_person_operation body
                    = JSONResponse status content) :
  exists errs,
    create_person_operation content = RequestValidationError errs /\
    In (["body"; "password"], MissingField) errs.
Proof.
  unfold create_person_operation in Hcreated.
  destruct (bind_body Person body) as [errs|person] eqn:Hb;
    [discriminate|].
  unfold bind_body in Hb.
  destruct body as [| | | |raw]; try discriminate.
  destruct (validate_model Person raw) as [errs|p] eqn:Hv; [discriminate|].
  injection Hb as <-.
  destruct (serialize_prefix PersonBase [password] raw p
              MainFacts.PersonBase_nodup MainFacts.PersonBase_defaults Hv)
    as [v1 [v2 [-> [H1 [_ Hs]]]]].
  unfold create_person, PersonOut in Hcreated. rewrite Hs in Hcreated.
  injection Hcreated as _ <-.
  apply (create_person_rejects v1 password MissingField).
  - unfold Person. apply in_or_app. right. now left.
  - assert (Hnone : dict_get "password" v1 = None).
    { apply dict_get_notin.
      rewrite (validate_model_keys _ _ _ H1). simpl.
      intros [H|[H|[H|[H|[H|[]]]]]]; discriminate. }
    change (name password) with "password". now rewrite Hnone.
Qed.

Lemma create_person_response_not_accepted_witness :
  exists errs,
    create_person_operation (VDict miguel_out)
    = RequestValidationError errs /\
    In (["body"; "password"], MissingField) errs.
Proof.
  exact (create_person_response_not_accepted
           (VDict miguel) (VDict miguel_out) HTTP_201_CREATED eq_refl).
Defined.

Lemma MainPtOne_Person_nodup : NoDup (field_names MainPtOne.Person).
Proof. apply MainFacts.NoDup_strings. reflexivity. Qed.

Lemma MainPtOne_Person_defaults : Forall default_ok MainPtOne.Person.
Proof. repeat constructor. Qed.

(** X7.  What main_pt_one.py's create-person returns is the validated person
    with all its five fields, under status 200, and it is a body the
    operation accepts: posted back, it comes back unchanged. *)
Theorem create_person_pt_one_round_trip
        (body content : value) (status : Z)
        (Hcreated : MainPtOne.create_person_operation body
                    = JSONResponse status content) :
  status = HTTP_200_OK /\
  (exists person,
      content = VDict person /\
      keys person
      = ["first_name"; "last_name"; "age"; "hair_color"; "is_married"]) /\
  MainPtOne.create_person_operation content = JSONResponse status content.
Proof.
  unfold MainPtOne.create_person_operation in Hcreated.
  destruct (bind_body MainPtOne.Person body) as [errs|person] eqn:Hb;
    [discriminate|].
  unfold bind_body in Hb.
  destruct body as [| | | |raw]; try discriminate.
  destruct (validate_model MainPtOne.Person raw) as [errs|p] eqn:Hv;
    [discriminate|].
  injection Hb as <-. injection Hcreated as <- <-.
  split; [reflexivity|]. split.
  - exists p. split; [reflexivity|].
    exact (validate_model_keys _ _ _ Hv).
  - unfold MainPtOne.create_person_operation, bind_body,
      MainPtOne.create_person.
    apply validate_model_inr in Hv.
    pose proof (validate_fields_fixed MainPtOne.Person raw p
                  MainPtOne_Person_nodup MainPtOne_Person_defaults Hv)
      as Hfix.
    apply validate_model_inr in Hfix. now rewrite Hfix.
Qed.

Lemma create_person_pt_one_round_trip_witness :
  MainPtOne.create_person_operation (VDict miguel)
  = JSONResponse HTTP_200_OK (VDict miguel_out) /\
  MainPtOne.create_person_operation (VDict miguel_out)
  = JSONResponse HTTP_200_OK (VDict miguel_out).
Proof.
  split; [reflexivity|].
  exact (proj2 (proj2 (create_person_pt_one_round_trip
                         (VDict miguel) (VDict miguel_out) HTTP_200_OK
                         eq_refl))).
Defined.

(** ** The fields of a person *)

(** X8.  [hair_color] takes the five literals of [HairColor] and nothing else:
    a literal is kept as it is, [null] and an absent key give [null], and a
    body with any other string there is rejected with an invalid
    enumeration value at [hair_color], whatever its other fields hold. *)
Theorem hair_color_literals
        (raw : dict) (colour : string)
        (Hraw : dict_get "hair_color" raw = Some (VStr colour)) :
  (In colour ["white"; "brown"; "black"; "blonde"; "red"] ->
   validate_field hair_color (dict_get "hair_color" raw)
   = inr (VStr colour)) /\
  (~ In colour ["white"; "brown"; "black"; "blonde"; "red"] ->
   exists errs,
     create_person_operation (VDict raw) = RequestValidationError errs /\
     In (["body"; "hair_color"], InvalidEnumValue) errs) /\
  validate_field hair_color None = inr VNone /\
  validate_field hair_color (Some VNone) = inr VNone.
Proof.
  assert (Hfield : validate_field hair_color (Some (VStr colour))
                   = if str_mem colour HairColor then inr (VStr colour)
                     else inl InvalidEnumValue) by reflexivity.
  rewrite Hraw, Hfield.
  split; [|split; [|split; reflexivity]].
  - intros Hin. apply (str_mem_In colour HairColor) in Hin. now rewrite Hin.
  - intros Hout.
    apply (create_person_rejects raw hair_color InvalidEnumValue).
    + unfold Person, PersonBase. simpl. auto 10.
    + change (name hair_color) with "hair_color". rewrite Hraw, Hfield.
      destruct (str_mem colour HairColor) eqn:Hm; [|reflexivity].
      exfalso. apply Hout. now apply (str_mem_In colour HairColor).
Qed.

Lemma hair_color_literals_witness :
  validate_field hair_color (Some (VStr "blonde")) = inr (VStr "blonde") /\
  exists errs,
    create_person_operation
      (VDict (("hair_color", VStr "green") :: miguel))
    = RequestValidationError errs /\
    In (["body"; "hair_color"], InvalidEnumValue) errs.
Proof.
  split.
  - apply (proj1 (hair_color_literals
                    [("hair_color", VStr "blonde")] "blonde" eq_refl)).
    simpl. auto.
  - apply (proj1 (proj2 (hair_color_literals
                           (("hair_color", VStr "green") :: miguel)
                           "green" eq_refl))).
    simpl. intros [H|[H|[H|[H|[H|[]]]]]]; discriminate.
Defined.

(** X9.  [password] needs at least 8 characters and has no upper bound: a body
    with a shorter password is rejected with the violation of that bound at
    [password], whatever its other fields hold, and every password of 8
    characters or more passes the field. *)
Theorem password_min_length
        (raw : dict) (pw : string)
        (Hraw : dict_get "password" raw = Some (VStr pw)) :
  ((String.length pw < 8)%nat ->
   exists errs,
     create_person_operation (VDict raw) = RequestValidationError errs /\
     In (["body"; "password"], LengthViolation (c_min_length 8)) errs) /\
  ((8 <= String.length pw)%nat ->
   validate_field password (dict_get "password" raw) = inr (VStr pw)).
Proof.
  assert (Hfield : validate_field password (Some (VStr pw))
                   = if Nat.leb 8 (String.length pw) then inr (VStr pw)
                     else inl (LengthViolation (c_min_length 8))).
  { unfold validate_field, password, check_constraints, check_length,
      check_min_length.
    cbn -[Nat.leb String.length].
    now destruct (Nat.leb 8 (String.length pw)). }
  rewrite Hraw, Hfield. split.
  - intros Hshort.
    apply (create_person_rejects raw password).
    + unfold Person. apply in_or_app. right. now left.
    + change (name password) with "password". rewrite Hraw, Hfield.
      assert (H : Nat.leb 8 (String.length pw) = false)
        by (apply Nat.leb_gt; exact Hshort).
      now rewrite H.
  - intros Hlong.
    assert (H : Nat.leb 8 (String.length pw) = true)
      by (apply Nat.leb_le; exact Hlong).
    now rewrite H.
Qed.

Lemma password_min_length_witness :
  exists errs,
    create_person_operation
      (VDict [("first_name", VStr "Miguel"); ("password", VStr "1234567")])
    = RequestValidationError errs /\
    In (["body"; "password"], LengthViolation (c_min_length 8)) errs.
Proof.
  apply (proj1 (password_min_length
                  [("first_name", VStr "Miguel");
                   ("password", VStr "1234567")]
                  "1234567" eq_refl)).
  simpl. lia.
Defined.

(** X10.  [first_name] and [last_name] take 1 to 50 characters: a body with an
    empty name or a name of more than 50 characters is rejected with the
    violated bound at that field, whatever its other fields hold, and a
    name within the bounds passes the field. *)
Theorem person_name_length
        (raw : dict) (f : field) (text : string)
        (Hf : In f [first_name; last_name])
        (Hraw : dict_get (name f) raw = Some (VStr text)) :
  ((String.length text < 1)%nat ->
   exists errs,
     create_person_operation (VDict raw) = RequestValidationError errs /\
     In (["body"; name f], LengthViolation (c_min_length 1)) errs) /\
  ((50 < String.length text)%nat ->
   exists errs,
     create_person_operation (VDict raw) = RequestValidationError errs /\
     In (["body"; name f], LengthViolation (c_max_length 50)) errs) /\
  ((1 <= String.length text <= 50)%nat ->
   validate_field f (dict_get (name f) raw) = inr (VStr text)).
Proof.
  assert (Hin : In f Person).
  { unfold Person, PersonBase. simpl. simpl in Hf.
    destruct Hf as [<-|[<-|[]]]; auto 10. }
  assert (Hfield : validate_field f (Some (VStr text))
                   = if Nat.leb 1 (String.length text) then
                       if Nat.leb (String.length text) 50 then
                         inr (VStr text)
                       else inl (LengthViolation (c_max_length 50))
                     else inl (LengthViolation (c_min_length 1))).
  { simpl in Hf.
    destruct Hf as [<-|[<-|[]]];
      unfold validate_field, first_name, last_name, check_constraints,
        check_length, check_min_length, check_max_length;
      cbn -[Nat.leb String.length];
      destruct (Nat.leb 1 (String.length text)); try reflexivity;
      now destruct (Nat.leb (String.length text) 50). }
  rewrite Hraw, Hfield. split; [|split].
  - intros Hshort. apply (create_person_rejects raw f); [exact Hin|].
    rewrite Hraw, Hfield.
    assert (H : Nat.leb 1 (String.length text) = false)
      by (apply Nat.leb_gt; exact Hshort).
    now rewrite H.
  - intros Hlong. apply (create_person_rejects raw f); [exact Hin|].
    rewrite Hraw, Hfield.
    assert (H1 : Nat.leb 1 (String.length text) = true)
      by (apply Nat.leb_le; lia).
    assert (H2 : Nat.leb (String.length text) 50 = false)
      by (apply Nat.leb_gt; exact Hlong).
    now rewrite H1, H2.
  - intros [Hlo Hhi].
    assert (H1 : Nat.leb 1 (String.length text) = true)
      by (apply Nat.leb_le; exact Hlo).
    assert (H2 : Nat.leb (String.length text) 50 = true)
      by (apply Nat.leb_le; exact Hhi).
    now rewrite H1, H2.
Qed.

Lemma person_name_length_witness :
  exists errs,
    create_person_operation
      (VDict [("first_name", VStr ""); ("last_name", VStr "Torres");
              ("age", VInt 25); ("password", VStr "12345678")])
    = RequestValidationError errs /\
    In (["body"; "first_name"], LengthViolation (c_min_length 1)) errs.
Proof.
  apply (proj1 (person_name_length
                  [("first_name", VStr ""); ("last_name", VStr "Torres");
                   ("age", VInt 25); ("password", VStr "12345678")]
                  first_name "" (or_introl eq_refl) eq_refl)).
  simpl. lia.
Defined.

(** ** Logging in: failures and the shape of a success *)

(** X11.  A username of more than 20 characters, with any password: the
    construction of [LoginOut] fails on the bound of [username] and the
    client gets a server error. *)
Theorem login_long_username_server_error
        (username password : string)
        (Hlong : (20 < String.length username)%nat) :
  login username password
  = inl (ValidationError
           [(["username"], LengthViolation (c_max_length 20))]) /\
  login_operation (credentials username password) = InternalServerError.
Proof.
  assert (Hle : Nat.leb (String.length username) 20 = false)
    by (apply Nat.leb_gt; exact Hlong).
  split.
  - unfold login, validate_model. cbn. now rewrite Hle.
  - unfold login_operation, credentials, bind_params, login,
      validate_model.
    cbn. now rewrite Hle.
Qed.

Lemma login_long_username_server_error_witness :
  login_operation (credentials long_username "any password")
  = InternalServerError.
Proof.
  apply (proj2 (login_long_username_server_error
                  long_username "any password" ltac:(simpl; lia))).
Defined.

(** X12.  Both form fields of login are required, also the password that the
    function never reads: a form without [username] or without [password]
    is rejected with that field missing, whatever else it holds. *)
Theorem login_requires_both_fields
        (form : dict) (k : string)
        (Hk : In k ["username"; "password"])
        (Habsent : dict_get k form = None) :
  exists errs,
    login_operation form = RequestValidationError errs /\
    In (["body"; k], MissingField) errs.
Proof.
  assert (Hf : exists f, In f login_form /\ name f = k /\
                         default (info f) = Required).
  { simpl in Hk. destruct Hk as [<-|[<-|[]]].
    - eexists. split; [left; reflexivity|]. now split.
    - eexists. split; [right; left; reflexivity|]. now split. }
  destruct Hf as [f [Hin [Hname Hreq]]]. subst k.
  destruct (bind_params_failure "body" login_form form f MissingField Hin)
    as [errs [Hb Herr]].
  { rewrite Habsent. unfold validate_field. now rewrite Hreq. }
  exists errs. split; [|exact Herr].
  unfold login_operation. now rewrite Hb.
Qed.

Lemma login_requires_both_fields_witness :
  exists errs,
    login_operation [("username", VStr "miguel2021")]
    = RequestValidationError errs /\
    In (["body"; "password"], MissingField) errs.
Proof.
  exact (login_requires_both_fields
           [("username", VStr "miguel2021")] "password"
           (or_intror (or_introl eq_refl)) eq_refl).
Defined.

Lemma login_form_bound (form args : dict) :
  bind_params "body" login_form form = inr args ->
  exists username password,
    dict_get "username" form = Some (VStr username) /\
    dict_get "password" form = Some (VStr password) /\
    args = credentials username password.
Proof.
  unfold bind_params, validate_model, login_form, validate_fields,
    validate_field.
  cbn [name default info Field optional ty].
  destruct (dict_get "username" form) as [[| | |u|]|];
    destruct (dict_get "password" form) as [[| | |p|]|];
    cbn; try discriminate.
  intros [= <-]. now exists u, p.
Qed.

(** X13.  Every success of login, for any form at all, has status 200 and
    holds the username of the form, which has at most 20 characters, and
    the fixed message; no other form field reaches the response. *)
Theorem login_success_shape
        (form : dict) (status : Z) (content : value)
        (Hok : login_operation form = JSONResponse status content) :
  status = HTTP_200_OK /\
  exists username,
    dict_get "username" form = Some (VStr username) /\
    (String.length username <= 20)%nat /\
    content = VDict [("username", VStr username);
                     ("message", VStr "Login Succesfully!")].
Proof.
  unfold login_operation in Hok.
  destruct (bind_params "body" login_form form) as [errs|args] eqn:Hb;
    [discriminate|].
  destruct (login_form_bound _ _ Hb) as [u [p [Hu [Hp ->]]]].
  unfold credentials in Hok.
  cbn [dict_get String.eqb Ascii.eqb Bool.eqb] in Hok.
  unfold login, serialize_response, validate_model in Hok.
  cbn -[Nat.leb String.length] in Hok.
  destruct (Nat.leb (String.length u) 20) eqn:Hle.
  - cbn -[Nat.leb String.length] in Hok. rewrite Hle in Hok.
    injection Hok as <- <-.
    split; [reflexivity|]. exists u. repeat split.
    + exact Hu.
    + now apply Nat.leb_le.
  - discriminate.
Qed.

Lemma login_success_shape_witness :
  exists username,
    dict_get "username"
             (("message", VStr "hacked")
                :: credentials "miguel2021" "12345678")
    = Some (VStr username) /\
    (String.length username <= 20)%nat /\
    VDict [("username", VStr "miguel2021");
           ("message", VStr "Login Succesfully!")]
    = VDict [("username", VStr username);
             ("message", VStr "Login Succesfully!")].
Proof.
  exact (proj2 (login_success_shape
                  (("message", VStr "hacked")
                     :: credentials "miguel2021" "12345678")
                  HTTP_200_OK
                  (VDict [("username", VStr "miguel2021");
                          ("message", VStr "Login Succesfully!")])
                  eq_refl)).
Defined.

(** ** Updating a person: what the merge keeps and what the path does *)

(** X14.  The schemas of Person and Location share no field, so the merge loses
    nothing: in the result of update-person every field of Person holds
    the person's value and every field of Location the location's. *)
Theorem update_person_keeps_both
        (person_id : Z) (rp rl person location : dict)
        (Hp : validate_model Person rp = inr person)
        (Hl : validate_model Location rl = inr location) :
  (forall k, In k (field_names Person) ->
             dict_get k (update_person person_id person location)
             = dict_get k person) /\
  (forall k, In k (field_names Location) ->
             dict_get k (update_person person_id person location)
             = dict_get k location) /\
  List.length (update_person person_id person location)
  = (List.length person + List.length location)%nat.
Proof.
  pose proof (validate_model_keys _ _ _ Hp) as Hkp.
  pose proof (validate_model_keys _ _ _ Hl) as Hkl.
  assert (Hnd : NoDup (keys location))
    by (rewrite Hkl; exact MainFacts.Location_nodup).
  unfold update_person. split; [|split].
  - intros k Hin. rewrite dict_get_update by assumption.
    rewrite (dict_get_notin k location); [reflexivity|].
    rewrite Hkl. simpl in Hin. simpl.
    destruct Hin as [<-|[<-|[<-|[<-|[<-|[<-|[]]]]]]];
      intros [H|[H|[H|[]]]]; discriminate.
  - intros k Hin. rewrite dict_get_update by assumption.
    destruct (dict_get_in k location) as [v Hv];
      [now rewrite Hkl|].
    now rewrite Hv.
  - rewrite <- (length_map fst (dict_update person location)).
    change (map fst (dict_update person location))
      with (keys (dict_update person location)).
    rewrite (keys_update_known _ _ _ _ Hkp Hkl eq_refl).
    rewrite <- (length_map fst person), <- (length_map fst location).
    change (map fst person) with (keys person).
    change (map fst location) with (keys location).
    rewrite Hkp, Hkl. reflexivity.
Qed.

Lemma update_person_keeps_both_witness :
  dict_get "age" (update_person 123
                    (miguel_out ++ [("password", VStr "12345678")])
                    puerto_montt)
  = dict_get "age" (miguel_out ++ [("password", VStr "12345678")]).
Proof.
  apply (proj1 (update_person_keeps_both
                  123 miguel puerto_montt
                  (miguel_out ++ [("password", VStr "12345678")])
                  puerto_montt eq_refl eq_refl)).
  simpl. auto.
Defined.

(** X15.  The identifier in the path of update-person is validated and then
    not used: two identifiers above 0 get the same answer for the same
    body, and no request is answered with a 404, in contrast with
    show-person-by-id. *)
Theorem update_person_ignores_id
        (id1 id2 : Z) (segment : string) (body : value)
        (H1 : 0 < id1) (H2 : 0 < id2) :
  update_person_operation (str_of_int id1) body
  = update_person_operation (str_of_int id2) body /\
  status_of (update_person_operation segment body) <> HTTP_404_NOT_FOUND.
Proof.
  split.
  - unfold update_person_operation.
    rewrite (person_id_bound _ H1), (person_id_bound _ H2).
    destruct body as [| | | |b]; reflexivity.
  - unfold update_person_operation.
    destruct (bind_params "path" [person_id_param]
                          [("person_id", VStr segment)]) as [e|args];
      destruct body as [| | | |b]; try discriminate;
      destruct (bind_embedded "person" Person b);
      destruct (bind_embedded "location" Location b); try discriminate.
    destruct (dict_get "person_id" args) as [[| |z| |]|]; discriminate.
Qed.

Lemma update_person_ignores_id_witness :
  update_person_operation (str_of_int 3) (update_body miguel puerto_montt)
  = update_person_operation (str_of_int 123)
                            (update_body miguel puerto_montt).
Proof.
  exact (proj1 (update_person_ignores_id
                  3 123 "123" (update_body miguel puerto_montt)
                  eq_refl eq_refl)).
Defined.

(** X16.  The body of update-person must hold both models under their names: a
    body without the key [person] or without the key [location] is
    rejected with that key missing, whatever the path and the rest of the
    body. *)
Theorem update_person_requires_both_models
        (segment : string) (b : dict) (k : string)
        (Hk : In k ["person"; "location"])
        (Habsent : dict_get k b = None) :
  exists errs,
    update_person_operation segment (VDict b)
    = RequestValidationError errs /\
    In (["body"; k], MissingField) errs.
Proof.
  assert (Hfind : forall (x : error) (a c : list error),
             In x (a ++ [x] ++ c) /\ In x (a ++ c ++ [x])).
  { intros x a c. split; apply in_or_app; right.
    - now left.
    - apply in_or_app. right. now left. }
  unfold update_person_operation.
  simpl in Hk.
  destruct Hk as [<-|[<-|[]]].
  - assert (Hm : bind_embedded "person" Person b
                 = inl [(["body"; "person"], MissingField)])
      by (unfold bind_embedded; now rewrite Habsent).
    rewrite Hm.
    destruct (bind_params "path" [person_id_param]
                          [("person_id", VStr segment)]) as [pe|args];
      destruct (bind_embedded "location" Location b) as [le|l];
      eexists; (split; [reflexivity|]); cbn [errors_of];
      apply (Hfind _ _ _).
  - assert (Hm : bind_embedded "location" Location b
                 = inl [(["body"; "location"], MissingField)])
      by (unfold bind_embedded; now rewrite Habsent).
    rewrite Hm.
    destruct (bind_params "path" [person_id_param]
                          [("person_id", VStr segment)]) as [pe|args];
      destruct (bind_embedded "person" Person b) as [pe'|p];
      eexists; (split; [reflexivity|]); cbn [errors_of];
      apply (Hfind _ _ _).
Qed.

Lemma update_person_requires_both_models_witness :
  exists errs,
    update_person_operation "123" (VDict [("person", VDict miguel)])
    = RequestValidationError errs /\
    In (["body"; "location"], MissingField) errs.
Proof.
  exact (update_person_requires_both_models
           "123" [("person", VDict miguel)] "location"
           (or_intror (or_introl eq_refl)) eq_refl).
Defined.

(** ** Contact: what is rejected *)

Section ContactRejections.

Variable valid_email : string -> bool.

(** X17.  The four form fields of contact are required and the address must
    pass [EmailStr]: a form without [first_name], [last_name], [email] or
    [message] is rejected with that field missing, and a form whose email
    fails the test is rejected at [email], whatever the other fields, the
    header and the cookie hold. *)
Theorem contact_rejects_incomplete_form
        (form headers cookies : dict) (k address : string)
        (Hk : In k ["first_name"; "last_name"; "email"; "message"]) :
  (dict_get k form = None ->
   exists errs,
     contact_operation valid_email form headers cookies
     = RequestValidationError errs /\
     In (["body"; k], MissingField) errs) /\
  (dict_get "email" form = Some (VStr address) ->
   valid_email address = false ->
   exists errs,
     contact_operation valid_email form headers cookies
     = RequestValidationError errs /\
     In (["body"; "email"], TypeMismatch) errs).
Proof.
  assert (Hrej : forall f e,
             In f (contact_form valid_email) ->
             validate_field f (dict_get (name f) form) = inl e ->
             exists errs,
               contact_operation valid_email form headers cookies
               = RequestValidationError errs /\
               In (["body"; name f], e) errs).
  { intros f e Hin Hf.
    destruct (bind_params_failure "body" (contact_form valid_email)
                                  form f e Hin Hf) as [errs [Hb Herr]].
    unfold contact_operation. rewrite Hb.
    eexists. split; [reflexivity|].
    apply in_or_app. left. exact Herr. }
  split.
  - intros Habsent. simpl in Hk.
    destruct Hk as [<-|[<-|[<-|[<-|[]]]]].
    + apply (Hrej contact_first_name MissingField);
        [simpl; auto | simpl; now rewrite Habsent].
    + apply (Hrej contact_last_name MissingField);
        [simpl; auto | simpl; now rewrite Habsent].
    + apply (Hrej (contact_email valid_email) MissingField);
        [simpl; auto | simpl; now rewrite Habsent].
    + apply (Hrej contact_message MissingField);
        [simpl; auto | simpl; now rewrite Habsent].
  - intros Hmail Hbad.
    apply (Hrej (contact_email valid_email) TypeMismatch);
      [simpl; auto|].
    simpl. rewrite Hmail. unfold validate_field. simpl. now rewrite Hbad.
Qed.

End ContactRejections.

Lemma contact_rejects_incomplete_form_witness :
  exists errs,
    contact_operation (fun _ => false) (contact_request twenty) [] []
    = RequestValidationError errs /\
    In (["body"; "email"], TypeMismatch) errs.
Proof.
  exact (proj2 (contact_rejects_incomplete_form
                  (fun _ => false) (contact_request twenty) [] []
                  "email" "miguel@example.com"
                  (or_intror (or_intror (or_introl eq_refl))))
               eq_refl eq_refl).
Defined.

(** ** Showing a person by query *)

(** X18.  [age] is declared a string: whatever text is given is accepted and
    returned as it is, with no conversion and no range, under the name as
    key, or under [None] when no name is given.  A name must have 1 to 50
    characters, and a query without [age] is rejected.  The two files
    declare the same operation. *)
Theorem show_person_echoes_age
        (query : dict) (person_name age_text : string) :
  show_person_operation [("age", VStr age_text)]
  = inr [(VNone, VStr age_text)] /\
  show_person_operation [("name", VStr person_name); ("age", VStr age_text)]
  = (if Nat.leb 1 (String.length person_name) then
       if Nat.leb (String.length person_name) 50 then
         inr [(VStr person_name, VStr age_text)]
       else inl [(["query"; "name"], LengthViolation (c_max_length 50))]
     else inl [(["query"; "name"], LengthViolation (c_min_length 1))]) /\
  (dict_get "age" query = None ->
   exists errs,
     show_person_operation query = inl errs /\
     In (["query"; "age"], MissingField) errs) /\
  MainPtOne.show_person_operation query = show_person_operation query.
Proof.
  split; [reflexivity|]. split; [|split; [|reflexivity]].
  - unfold show_person_operation, bind_params, validate_model,
      show_person_query, validate_fields, validate_field,
      check_constraints, check_length, check_min_length, check_max_length.
    cbn -[Nat.leb String.length].
    destruct (Nat.leb 1 (String.length person_name)); [|reflexivity].
    now destruct (Nat.leb (String.length person_name) 50).
  - intros Habsent.
    destruct (bind_params_failure
                "query" show_person_query query
                (mkfield "age" TStr false (Field Required)) MissingField)
      as [errs [Hb Herr]].
    + simpl. auto.
    + simpl. now rewrite Habsent.
    + exists errs. split; [|exact Herr].
      unfold show_person_operation. now rewrite Hb.
Qed.

Lemma show_person_echoes_age_witness :
  exists errs,
    show_person_operation [("name", VStr "Miguel")] = inl errs /\
    In (["query"; "age"], MissingField) errs.
Proof.
  exact (proj1 (proj2 (proj2 (show_person_echoes_age
                                [("name", VStr "Miguel")] "" "")))
               eq_refl).
Defined.
